(** * Azure agent and chat setup: a shallow embedding of the Python sources

    The development follows the layout of the repository:

    - [Py]              the fragment of Python the sources rely on: values,
                        exceptions, a writer/error monad for [print], client
                        calls and [try]/[except];
    - [Requests]        the outcome of one [requests.post] call;
    - [LeadProcessing]  lead_processing.py: the three backend tools and the
                        prompt loop of [main];
    - [LeadSetup]       agent_lead_processing_setup.py: the OpenAPI document;
    - [Chat]            chat_with_lead_processing_agent.py;
    - [Support]         agent_insurance_customer_support.py: the vector-store
                        upload with its polling loop;
    - [Cost]            openAI_cost_calculator.py, over binary64 floats;
    - [LeadSetupMain]   agent_lead_processing_setup.py: its entry point;
    - [SupportSetup]    agent_insurance_customer_support.py: the lookup of
                        the lead agent and the setup of the FAQ agent;
    - [CostSummary]     openAI_cost_calculator.py: the session summary;
    - [Eval]            eval.py: the JSONL dataset.

    Everything the hosted services answer (HTTP responses, agent runs, vector
    store status) is an input of the functions below. *)

From Stdlib Require Import ZArith List String Ascii Bool Lia DecimalString.
From Stdlib Require Import PrimFloat SpecFloat FloatOps.
From Equations Require Import Equations.
Import ListNotations.

Local Open Scope list_scope.
Local Open Scope string_scope.
Local Open Scope Z_scope.

(* ===================================================================== *)
(** ** Python values, exceptions and effects *)
(* ===================================================================== *)

Module Py.

(** JSON documents and the Python objects they decode to. A [dict] keeps its
    insertion order, so it is an association list. *)
#[warnings="-register-all"]
Inductive pyval : Type :=
| PNone
| PBool (b : bool)
| PInt (z : Z)
| PFloat (f : float)
| PStr (s : string)
| PList (l : list pyval)
| PDict (d : list (string * pyval)).

Definition is_str (v : pyval) : bool :=
  match v with PStr _ => true | _ => false end.

(** [type(v).__name__] *)
Definition type_name (v : pyval) : string :=
  match v with
  | PNone => "NoneType"
  | PBool _ => "bool"
  | PInt _ => "int"
  | PFloat _ => "float"
  | PStr _ => "str"
  | PList _ => "list"
  | PDict _ => "dict"
  end.

(** [str(n)] for an [int] *)
Definition str_of_Z (z : Z) : string := NilZero.string_of_int (Z.to_int z).

(** An f-string field holding a value of [os.getenv]: [None] prints as None. *)
Definition fmt_opt (o : option string) : string :=
  match o with Some s => s | None => "None" end.

(** Truth value of a value of [os.getenv]: [None] and the empty string are
    false. *)
Definition truthy (o : option string) : bool :=
  match o with
  | Some s => negb (s =? "")%string
  | None => false
  end.

(** The exception classes the sources meet. All of them derive from
    [Exception], which is what every handler of the sources catches;
    [ExTimeout], [ExConnectionError], [ExHTTPError] and [ExInvalidJSON] also
    derive from [requests.exceptions.RequestException]. *)
Inductive exn_class : Type :=
| ExTimeout
| ExConnectionError
| ExHTTPError
| ExInvalidJSON
| ExJSONDecode
| ExAttributeError
| ExTypeError
| ExValueError
| ExOverflowError
| ExZeroDivisionError
| ExEOFError
| ExOSError
| ExServiceError
| ExException.

Record exn : Type := mkExn { exn_class_of : exn_class; exn_msg : string }.

Definition is_Timeout (e : exn) : bool :=
  match exn_class_of e with ExTimeout => true | _ => false end.

Definition is_RequestException (e : exn) : bool :=
  match exn_class_of e with
  | ExTimeout | ExConnectionError | ExHTTPError | ExInvalidJSON => true
  | _ => false
  end.

(** [str(e)] *)
Definition str_exn (e : exn) : string := exn_msg e.

Inductive result (A : Type) : Type :=
| Return (a : A)
| Raise (e : exn).
Arguments Return {A} a.
Arguments Raise {A} e.

(** What a run of the program does to the outside world, in order. *)
Inductive event : Type :=
| Stdout (text : string)
| Stdin (prompt : string)
| HttpPost (url : string) (json : option pyval) (timeout : Z)
| Connect (endpoint tenant : option string)
| GetAgent (agent_id : string)
| CreateAgent (model name : string)
| EnableAutoFunctionCalls
| ThreadsCreate
| MessagesCreate (thread_id role content : string)
| RunsCreateAndProcess (thread_id agent_id : string)
| GetLastMessageText (thread_id : string)
| OpenFile (path : string)
| FilesUpload (purpose : string)
| VectorStoresCreate (name file_id : string)
| VectorStoresGet (store_id : string)
| Sleep (seconds : Z)
| PrintTraceback.

(** A computation: the events it emitted, then its value or the exception
    that ended it. *)
Definition M (A : Type) : Type := (list event * result A)%type.

Definition ret {A} (a : A) : M A := ([], Return a).

Definition raise {A} (e : exn) : M A := ([], Raise e).

Definition bind {A B} (m : M A) (k : A -> M B) : M B :=
  match m with
  | (out, Return a) => let (out', r) := k a in ((out ++ out')%list, r)
  | (out, Raise e) => (out, Raise e)
  end.

Definition emit (ev : event) : M unit := ([ev], Return tt).

(** An effect whose answer the outside world supplies. *)
Definition call {A} (ev : event) (answer : result A) : M A := ([ev], answer).

(** [try: body except Exception as e: handler(e)] *)
Definition try_except {A} (body : M A) (handler : exn -> M A) : M A :=
  match body with
  | (out, Return a) => (out, Return a)
  | (out, Raise e) => let (out', r) := handler e in ((out ++ out')%list, r)
  end.

(** [print(s)] and [print(s, end=e)] *)
Definition print (s : string) : M unit := emit (Stdout (s ++ String "010" "")).
Definition print_end (s e : string) : M unit := emit (Stdout (s ++ e)).

Definition events {A} (m : M A) : list event := fst m.
Definition outcome {A} (m : M A) : result A := snd m.

(** Everything written to standard output, in order. *)
Fixpoint stdout_of (evs : list event) : list string :=
  match evs with
  | [] => []
  | Stdout s :: rest => s :: stdout_of rest
  | _ :: rest => stdout_of rest
  end.

(** How many times [input] was called. *)
Fixpoint stdin_reads (evs : list event) : nat :=
  match evs with
  | [] => O
  | Stdin _ :: rest => S (stdin_reads rest)
  | _ :: rest => stdin_reads rest
  end.

Fixpoint assoc (key : string) (d : list (string * pyval)) : option pyval :=
  match d with
  | [] => None
  | (k, v) :: rest => if (k =? key)%string then Some v else assoc key rest
  end.

(** [v.get(key, default)]: only a [dict] has the method. *)
Definition py_get (v : pyval) (key : string) (default : pyval) : M pyval :=
  match v with
  | PDict d =>
      ret (match assoc key d with Some x => x | None => default end)
  | _ =>
      raise (mkExn ExAttributeError
               ("'" ++ type_name v ++ "' object has no attribute 'get'"))
  end.

(** [s.lower()] on the ASCII letters; the other bytes of the UTF-8 text are
    kept (no character outside ASCII lowers to a string of ASCII letters
    only, so comparisons with an ASCII word are not affected). *)
Definition lower_ascii (c : ascii) : ascii :=
  let n := nat_of_ascii c in
  if ((65 <=? n)%nat && (n <=? 90)%nat)%bool then ascii_of_nat (n + 32) else c.

Fixpoint lower (s : string) : string :=
  match s with
  | EmptyString => EmptyString
  | String c rest => String (lower_ascii c) (lower rest)
  end.

(** [c.isspace()] for a character of ASCII *)
Definition is_space (c : ascii) : bool :=
  let n := nat_of_ascii c in
  (((9 <=? n)%nat && (n <=? 13)%nat) || ((28 <=? n)%nat && (n <=? 32)%nat))%bool.

(** A byte that continues a character of a UTF-8 text (10xxxxxx). *)
Definition is_continuation (c : ascii) : bool :=
  let n := nat_of_ascii c in ((128 <=? n)%nat && (n <=? 191)%nat)%bool.

(** The characters of a UTF-8 text, each as its bytes: a byte that is not a
    continuation opens a character, the continuations after it belong to
    it. *)
Fixpoint chars_from (current : string) (s : string) : list string :=
  match s with
  | EmptyString => [current]
  | String c rest =>
      if is_continuation c then chars_from (current ++ String c "") rest
      else current :: chars_from (String c "") rest
  end.

Definition chars (s : string) : list string :=
  match s with
  | EmptyString => []
  | String c rest => chars_from (String c "") rest
  end.

Definition of_bytes (l : list nat) : string :=
  fold_right (fun n s => String (ascii_of_nat n) s) "" l.

(** The white space of Unicode outside ASCII, in UTF-8: U+0085, U+00A0,
    U+1680, U+2000 to U+200A, U+2028, U+2029, U+202F, U+205F, U+3000. *)
Definition unicode_spaces : list string :=
  map of_bytes
    [[194; 133]; [194; 160]; [225; 154; 128];
     [226; 128; 128]; [226; 128; 129]; [226; 128; 130]; [226; 128; 131];
     [226; 128; 132]; [226; 128; 133]; [226; 128; 134]; [226; 128; 135];
     [226; 128; 136]; [226; 128; 137]; [226; 128; 138];
     [226; 128; 168]; [226; 128; 169]; [226; 128; 175];
     [226; 129; 159]; [227; 128; 128]]%nat.

(** [ch.isspace()] for one character *)
Definition is_space_char (ch : string) : bool :=
  match ch with
  | String c EmptyString => is_space c
  | _ => existsb (String.eqb ch) unicode_spaces
  end.

(** Drops the white space a list of characters starts with. *)
Fixpoint drop_spaces (l : list string) : list string :=
  match l with
  | [] => []
  | ch :: rest => if is_space_char ch then drop_spaces rest else l
  end.

(** [s.strip()]: the text without the white space at its two ends. *)
Definition strip (s : string) : string :=
  String.concat "" (rev (drop_spaces (rev (drop_spaces (chars s))))).

(** [s.startswith(p)] *)
Definition startswith (s p : string) : bool := String.prefix p s.

End Py.

Arguments Py.strip : simpl never.

Module PyNotations.
Notation "x <- m ;; k" := (Py.bind m (fun x => k))
  (at level 61, m at next level, right associativity).
Notation "m ;;; k" := (Py.bind m (fun _ => k))
  (at level 61, right associativity).
End PyNotations.

Import Py PyNotations.

(* ===================================================================== *)
(** ** requests.post *)
(* ===================================================================== *)

Module Requests.

(** The parts of a [requests.Response] the sources use. [json_result] is what
    [response.json()] does: the decoded document, or the exception raised on
    a body that is not JSON. *)
Record response : Type := mkResponse {
  status_code : Z;
  reason : string;
  url : string;
  json_result : result pyval
}.

(** One call of [requests.post]: it raises (timeout, connection error, ...)
    or returns a response. *)
Inductive post_outcome : Type :=
| PostRaises (e : exn)
| PostReturns (r : response).

Definition post (target : string) (json : option pyval) (timeout : Z)
  (net : post_outcome) : M response :=
  call (HttpPost target json timeout)
    (match net with
     | PostRaises e => Raise e
     | PostReturns r => Return r
     end).

(** [response.raise_for_status()] *)
Definition raise_for_status (r : response) : M unit :=
  let s := status_code r in
  if ((400 <=? s) && (s <? 500))%bool then
    raise (mkExn ExHTTPError
             (str_of_Z s ++ " Client Error: " ++ reason r ++ " for url: " ++ url r))
  else if ((500 <=? s) && (s <? 600))%bool then
    raise (mkExn ExHTTPError
             (str_of_Z s ++ " Server Error: " ++ reason r ++ " for url: " ++ url r))
  else ret tt.

(** [response.json()] *)
Definition json (r : response) : M pyval := ([], json_result r).

End Requests.

(* ===================================================================== *)
(** ** lead_processing.py *)
(* ===================================================================== *)

Module LeadProcessing.

(** The sessions of the hosted agent service, as far as the drivers see
    them. *)
Record agent : Type := mkAgent { agent_name : string; agent_id : string }.
Record thread : Type := mkThread { thread_id : string }.
Record run : Type := mkRun { status : string; last_error : string }.

(** One pass of a prompt loop: the line [input] returns and what the service
    answers to the three calls that may follow. [last_message] is the
    [text.value] of the latest agent message, when there is one. *)
Record turn : Type := mkTurn {
  line : string;
  message_created : result unit;
  run_processed : result run;
  last_message : result (option string)
}.

(** How the body of a [while True] loop ends: [break], or on to the next
    pass ([continue] or the end of the body). *)
Inductive control : Type := Break | Continue.

Record world : Type := mkWorld {
  agent_answer : result agent;
  thread_answer : result thread;
  stdin : list turn
}.

Section Program.

(** The process environment after [load_dotenv()]. *)
Variable getenv : string -> option string.

Definition AZURE_TENANT_ID : option string := getenv "AZURE_TENANT_ID".
Definition AZURE_FUNCTION_BASE_URL : option string :=
  getenv "AZURE_FUNCTION_BASE_URL".
Definition AZURE_FUNCTION_CODE : option string := getenv "AZURE_FUNCTION_CODE".

(** Every call is made with [timeout=30] and a JSON content-type header. *)
Definition request_timeout : Z := 30.

Definition generate_quote_id (dummy : string) (net : Requests.post_outcome)
  : M pyval :=
  try_except
    (let target := fmt_opt AZURE_FUNCTION_BASE_URL ++ "/generate-quote-id?code="
                   ++ fmt_opt AZURE_FUNCTION_CODE in
     response <- Requests.post target None request_timeout net ;;
     Requests.raise_for_status response ;;;
     result <- Requests.json response ;;
     py_get result "quote_id" (PStr ""))
    (fun e => ret (PStr ("Error: Could not generate quote ID. " ++ str_exn e))).

Definition send_email_notification (to_email quote_id full_name : string)
  (net : Requests.post_outcome) : M pyval :=
  try_except
    (let target := fmt_opt AZURE_FUNCTION_BASE_URL ++ "/send-email?code="
                   ++ fmt_opt AZURE_FUNCTION_CODE in
     let payload := PDict [("to_email", PStr to_email);
                           ("quote_id", PStr quote_id);
                           ("full_name", PStr full_name)] in
     response <- Requests.post target (Some payload) request_timeout net ;;
     Requests.raise_for_status response ;;;
     result <- Requests.json response ;;
     py_get result "message" (PStr "Success: Email notification sent."))
    (fun e =>
       print ("Error sending email: " ++ str_exn e) ;;;
       ret (PStr ("An error occurred while sending the email to " ++ to_email
                  ++ ". Please try again later."))).

Definition update_cosmos_db (quote_id full_name email phone_number : string)
  (age : Z) (location : string) (net : Requests.post_outcome) : M pyval :=
  try_except
    (let payload := PDict [("quote_id", PStr quote_id);
                           ("full_name", PStr full_name);
                           ("email", PStr email);
                           ("phone_number", PStr phone_number);
                           ("age", PInt age);
                           ("location", PStr location)] in
     let target := fmt_opt AZURE_FUNCTION_BASE_URL ++ "/leads?code="
                   ++ fmt_opt AZURE_FUNCTION_CODE in
     response <- Requests.post target (Some payload) request_timeout net ;;
     Requests.raise_for_status response ;;;
     response_data <- Requests.json response ;;
     py_get response_data "message"
       (PStr "Success: Lead information has been saved to the database."))
    (fun e =>
       if is_Timeout e then
         print ("Timeout while calling Azure Function for lead: " ++ full_name) ;;;
         ret (PStr ("The request timed out while saving lead information for "
                    ++ full_name ++ ". Please try again later."))
       else if is_RequestException e then
         print ("Failed to call Azure Function: " ++ str_exn e) ;;;
         ret (PStr ("An error occurred while saving the lead information for "
                    ++ full_name ++ ". Please try again later."))
       else
         print ("Unexpected error: " ++ str_exn e) ;;;
         ret (PStr ("An unexpected error occurred while saving the lead information for "
                    ++ full_name ++ ". Please try again later."))).

(** The body of the prompt loop of [main]. *)
Definition loop_body (th : thread) (ag : agent) (t : turn) : M control :=
  user_prompt <- call (Stdin "Enter a prompt (or type 'quit' to exit): ")
                   (Return (line t)) ;;
  if (lower user_prompt =? "quit")%string then ret Break
  else if (String.length user_prompt =? 0)%nat then
    print "Please enter a prompt." ;;;
    ret Continue
  else
    call (MessagesCreate (thread_id th) "user" user_prompt) (message_created t) ;;;
    run <- call (RunsCreateAndProcess (thread_id th) (agent_id ag))
             (run_processed t) ;;
    last_msg <- call (GetLastMessageText (thread_id th)) (last_message t) ;;
    match last_msg with
    | Some value => print ("Last Message: " ++ value)
    | None => ret tt
    end ;;;
    ret Continue.

(** [while True: ...] over the lines standard input still holds; at the end
    of input, [input] raises [EOFError]. *)
Fixpoint prompt_loop (th : thread) (ag : agent) (turns : list turn) : M unit :=
  match turns with
  | [] =>
      call (Stdin "Enter a prompt (or type 'quit' to exit): ")
        (Raise (mkExn ExEOFError "EOF when reading a line"))
  | t :: rest =>
      c <- loop_body th ag t ;;
      match c with
      | Break => ret tt
      | Continue => prompt_loop th ag rest
      end
  end.

(** [main()]. The instruction text handed to [create_agent] is prose for the
    hosted model and is not part of the event. *)
Definition main (w : world) : M unit :=
  try_except
    (let project_endpoint := getenv "AI_FOUNDARY_ENDPOINT" in
     let model_deployment_name := getenv "MODEL_DEPLOYMENT_NAME" in
     (if (negb (truthy project_endpoint) || negb (truthy model_deployment_name))%bool
      then raise (mkExn ExValueError
        "AI_FOUNDARY_ENDPOINT and MODEL_DEPLOYMENT_NAME environment variables must be set.")
      else ret tt) ;;;
     (if (negb (truthy AZURE_FUNCTION_BASE_URL) || negb (truthy AZURE_FUNCTION_CODE))%bool
      then raise (mkExn ExValueError
        "AZURE_FUNCTION_BASE_URL and AZURE_FUNCTION_CODE environment variables must be set.")
      else ret tt) ;;;
     emit (Connect project_endpoint AZURE_TENANT_ID) ;;;
     ag <- call (CreateAgent (fmt_opt model_deployment_name) "Lead-Generation-Agent")
             (agent_answer w) ;;
     emit EnableAutoFunctionCalls ;;;
     print ("Successfully created agent: '" ++ agent_name ag ++ "' with ID: "
            ++ agent_id ag) ;;;
     th <- call ThreadsCreate (thread_answer w) ;;
     prompt_loop th ag (stdin w))
    (fun e => print ("An error occurred: " ++ str_exn e)).

End Program.

End LeadProcessing.

(* ===================================================================== *)
(** ** chat_with_lead_processing_agent.py *)
(* ===================================================================== *)

Module Chat.

Import LeadProcessing (agent, thread, run, turn, control, world).

Definition AGENT_ID : string := "asst_xS4WzzjvAasllgAnOYPiWFe2".

Definition nl : string := String "010" "".

(** [s * n] *)
Fixpoint str_mul (s : string) (n : nat) : string :=
  match n with
  | O => ""
  | S k => s ++ str_mul s k
  end.

(** What the outside world answers during one session of the chat
    interface. Building the credential and the client can raise: the client
    refuses an endpoint that is [None], raising [endpoint_error]; for an
    endpoint that is a string, [client_answer] is what the two constructors
    do. [service] holds the answers of the agent service and the lines of
    standard input. *)
Record session : Type := mkSession {
  client_answer : result unit;
  endpoint_error : exn;
  service : world
}.

(** [AzureCliCredential(tenant_id=...)] and
    [AgentsClient(endpoint=..., credential=...)] *)
Definition build_client (endpoint tenant : option string) (s : session)
  : M unit :=
  call (Connect endpoint tenant)
    (match endpoint with
     | None => Raise (endpoint_error s)
     | Some _ => client_answer s
     end).

Section Program.

Variable getenv : string -> option string.

Definition AZURE_TENANT_ID : option string := getenv "AZURE_TENANT_ID".
Definition PROJECT_ENDPOINT : option string := getenv "AI_FOUNDARY_ENDPOINT".

(** The body of the conversation loop of [run_chat_interface]. *)
Definition loop_body (th : thread) (agent_id : string) (t : turn) : M control :=
  user_prompt <- call (Stdin "Your Input: ") (Return (LeadProcessing.line t)) ;;
  if (lower user_prompt =? "quit")%string then
    print (nl ++ "Thank you for using the Lead Generation Agent!") ;;;
    ret LeadProcessing.Break
  else if (String.length (strip user_prompt) =? 0)%nat then
    print ("Please enter a message." ++ nl) ;;;
    ret LeadProcessing.Continue
  else
    call (MessagesCreate (LeadProcessing.thread_id th) "user" user_prompt)
      (LeadProcessing.message_created t) ;;;
    print_end (nl ++ "Agent: ") "" ;;;
    run <- call (RunsCreateAndProcess (LeadProcessing.thread_id th) agent_id)
             (LeadProcessing.run_processed t) ;;
    last_msg <- call (GetLastMessageText (LeadProcessing.thread_id th))
                  (LeadProcessing.last_message t) ;;
    match last_msg with
    | Some value => print (value ++ nl)
    | None => print ("No response from agent." ++ nl)
    end ;;;
    (if (LeadProcessing.status run =? "failed")%string then
       print ("⚠ Run failed: " ++ LeadProcessing.last_error run ++ nl)
     else ret tt) ;;;
    ret LeadProcessing.Continue.

Fixpoint conversation_loop (th : thread) (agent_id : string) (turns : list turn)
  : M unit :=
  match turns with
  | [] =>
      call (Stdin "Your Input: ")
        (Raise (mkExn ExEOFError "EOF when reading a line"))
  | t :: rest =>
      c <- loop_body th agent_id t ;;
      match c with
      | LeadProcessing.Break => ret tt
      | LeadProcessing.Continue => conversation_loop th agent_id rest
      end
  end.

Definition run_chat_interface (agent_id : string) (s : session) : M unit :=
  try_except
    (build_client PROJECT_ENDPOINT AZURE_TENANT_ID s ;;;
     ag <- call (GetAgent agent_id) (LeadProcessing.agent_answer (service s)) ;;
     print ("✓ Connected to agent: '" ++ LeadProcessing.agent_name ag
            ++ "' (ID: " ++ LeadProcessing.agent_id ag ++ ")") ;;;
     th <- call ThreadsCreate (LeadProcessing.thread_answer (service s)) ;;
     print ("✓ Created conversation thread with ID: "
            ++ LeadProcessing.thread_id th ++ nl) ;;;
     print (str_mul "=" 60) ;;;
     print "Insurance Customer Service - Chat Interface" ;;;
     print (str_mul "=" 60) ;;;
     print ("Type 'quit' to exit" ++ nl) ;;;
     conversation_loop th agent_id (LeadProcessing.stdin (service s)))
    (fun e =>
       print (nl ++ "❌ An error occurred: " ++ str_exn e) ;;;
       emit PrintTraceback).

(** The [if __name__ == "__main__":] block. *)
Definition dunder_main (s : session) : M unit :=
  let agent_id := getenv "AGENT_ID" in
  let agent_id := AGENT_ID in
  run_chat_interface agent_id s.

End Program.

End Chat.

(* ===================================================================== *)
(** ** agent_lead_processing_setup.py *)
(* ===================================================================== *)

Module LeadSetup.

Section Program.

Variable getenv : string -> option string.

Definition azure_function_base_url : option string :=
  getenv "AZURE_FUNCTION_BASE_URL".
Definition azure_function_code : option string := getenv "AZURE_FUNCTION_CODE".

(** A value of [os.getenv] placed in a document. *)
Definition of_env (o : option string) : pyval :=
  match o with Some s => PStr s | None => PNone end.

(** The OpenAPI document that declares the three operations to the agent
    runtime. *)
Definition openapi_spec : pyval :=
  PDict [
    ("openapi", PStr "3.0.0");
    ("info", PDict [
      ("title", PStr "Lead Management API");
      ("description", PStr "API for managing leads, generating quote IDs, and sending email notifications");
      ("version", PStr "1.0.0")]);
    ("servers", PList [PDict [("url", of_env azure_function_base_url)]]);
    ("paths", PDict [
      ("/api/generate-quote-id", PDict [
        ("get", PDict [
          ("operationId", PStr "generate_quote_id");
          ("summary", PStr "Generates a unique quote ID");
          ("description", PStr "Creates a new quote ID for a potential customer");
          ("parameters", PList [PDict [
            ("name", PStr "code");
            ("in", PStr "query");
            ("required", PBool true);
            ("schema", PDict [("type", PStr "string");
                              ("default", of_env azure_function_code)]);
            ("description", PStr "Azure Function authorization code")]]);
          ("responses", PDict [
            ("200", PDict [
              ("description", PStr "Quote ID generated successfully");
              ("content", PDict [
                ("application/json", PDict [
                  ("schema", PDict [
                    ("type", PStr "object");
                    ("properties", PDict [
                      ("quote_id", PDict [
                        ("type", PStr "string");
                        ("description", PStr "The generated quote ID")])])])])])])])])]);
      ("/api/leads", PDict [
        ("post", PDict [
          ("operationId", PStr "process_lead");
          ("summary", PStr "Processes and stores lead information");
          ("description", PStr "Saves lead information to the database");
          ("parameters", PList [PDict [
            ("name", PStr "code");
            ("in", PStr "query");
            ("required", PBool true);
            ("schema", PDict [("type", PStr "string");
                              ("default", of_env azure_function_code)]);
            ("description", PStr "Azure Function authorization code")]]);
          ("requestBody", PDict [
            ("required", PBool true);
            ("content", PDict [
              ("application/json", PDict [
                ("schema", PDict [
                  ("type", PStr "object");
                  ("properties", PDict [
                    ("quote_id", PDict [
                      ("type", PStr "string");
                      ("description", PStr "The quote ID associated with this lead")]);
                    ("full_name", PDict [
                      ("type", PStr "string");
                      ("description", PStr "Full name of the lead")]);
                    ("email", PDict [
                      ("type", PStr "string");
                      ("format", PStr "email");
                      ("description", PStr "Email address of the lead")]);
                    ("phone_number", PDict [
                      ("type", PStr "string");
                      ("description", PStr "Phone number of the lead")]);
                    ("age", PDict [
                      ("type", PStr "integer");
                      ("description", PStr "Age of the lead")]);
                    ("location", PDict [
                      ("type", PStr "string");
                      ("description", PStr "Location/city of the lead")])]);
                  ("required", PList [PStr "quote_id"; PStr "full_name";
                                      PStr "email"; PStr "phone_number";
                                      PStr "age"; PStr "location"])])])])]);
          ("responses", PDict [
            ("200", PDict [
              ("description", PStr "Lead processed successfully");
              ("content", PDict [
                ("application/json", PDict [
                  ("schema", PDict [
                    ("type", PStr "object");
                    ("properties", PDict [
                      ("status", PDict [
                        ("type", PStr "string");
                        ("description", PStr "Status of the operation")]);
                      ("message", PDict [
                        ("type", PStr "string");
                        ("description", PStr "Success message")])])])])])])])])]);
      ("/api/send-email", PDict [
        ("post", PDict [
          ("operationId", PStr "send_email_notification");
          ("summary", PStr "Sends an email notification");
          ("description", PStr "Sends an email notification with quote ID and full name to the lead");
          ("parameters", PList [PDict [
            ("name", PStr "code");
            ("in", PStr "query");
            ("required", PBool true);
            ("schema", PDict [("type", PStr "string");
                              ("default", of_env azure_function_code)]);
            ("description", PStr "Azure Function authorization code")]]);
          ("requestBody", PDict [
            ("required", PBool true);
            ("content", PDict [
              ("application/json", PDict [
                ("schema", PDict [
                  ("type", PStr "object");
                  ("properties", PDict [
                    ("to_email", PDict [
                      ("type", PStr "string");
                      ("format", PStr "email");
                      ("description", PStr "Recipient email address")]);
                    ("quote_id", PDict [
                      ("type", PStr "string");
                      ("description", PStr "Quote ID to include in the email")]);
                    ("full_name", PDict [
                      ("type", PStr "string");
                      ("description", PStr "Full name of the recipient")])]);
                  ("required", PList [PStr "to_email"; PStr "quote_id";
                                      PStr "full_name"])])])])]);
          ("responses", PDict [
            ("200", PDict [
              ("description", PStr "Email sent successfully");
              ("content", PDict [
                ("application/json", PDict [
                  ("schema", PDict [
                    ("type", PStr "object");
                    ("properties", PDict [
                      ("status", PDict [
                        ("type", PStr "string");
                        ("description", PStr "Status of the operation")]);
                      ("message", PDict [
                        ("type", PStr "string");
                        ("description", PStr "Success message")])])])])])])])])])])].

End Program.

(** *** Reading an OpenAPI document *)

(** [v[k1][k2]...]: the value under a path of keys, when every step is a
    [dict] holding the key. *)
Fixpoint at_path (v : pyval) (keys : list string) : option pyval :=
  match keys with
  | [] => Some v
  | k :: rest =>
      match v with
      | PDict d =>
          match assoc k d with
          | Some x => at_path x rest
          | None => None
          end
      | _ => None
      end
  end.

Definition entries (v : option pyval) : list (string * pyval) :=
  match v with Some (PDict d) => d | _ => [] end.

(** The operations a document declares: path, HTTP method, operation. *)
Definition operations (spec : pyval) : list (string * string * pyval) :=
  flat_map
    (fun '(path, item) =>
       map (fun '(method, op) => (path, method, op)) (entries (Some item)))
    (entries (at_path spec ["paths"])).

(** Where and how the operation with a given [operationId] is declared. *)
Definition declaration_of (spec : pyval) (operation_id : string)
  : option (string * string * pyval) :=
  find (fun '(_, _, op) =>
          match at_path op ["operationId"] with
          | Some (PStr s) => (s =? operation_id)%string
          | _ => false
          end)
       (operations spec).

(** Whether a document declares the operation [operation_id] with the given
    HTTP method at the given path. *)
Definition declares (spec : pyval) (method path operation_id : string) : bool :=
  existsb
    (fun '(p, m, op) =>
       (p =? path)%string && (m =? method)%string
       && match at_path op ["operationId"] with
          | Some (PStr s) => (s =? operation_id)%string
          | _ => false
          end)%bool
    (operations spec).

(** The names of the parameters an operation requires in the query string. *)
Definition required_query_parameters (op : pyval) : list string :=
  match at_path op ["parameters"] with
  | Some (PList ps) =>
      flat_map
        (fun p =>
           match at_path p ["name"], at_path p ["in"], at_path p ["required"] with
           | Some (PStr n), Some (PStr "query"), Some (PBool true) => [n]
           | _, _, _ => []
           end)
        ps
  | _ => []
  end.

(** The schema of the JSON body of an operation's 200 response. *)
Definition response_schema (op : pyval) : option pyval :=
  at_path op ["responses"; "200"; "content"; "application/json"; "schema"].

End LeadSetup.

(* ===================================================================== *)
(** ** agent_insurance_customer_support.py *)
(* ===================================================================== *)

Module Support.

Record file : Type := mkFile { file_id : string }.
Record vector_store : Type := mkStore { id : string; status : string }.

(** What the service answers during one upload: opening the file, the
    upload, the creation of the store, and the [n]-th call of
    [vector_stores.get] (counted from 0). *)
Record world : Type := mkWorld {
  opened : result unit;
  uploaded : result file;
  created : result vector_store;
  polled : nat -> result vector_store
}.

Definition max_wait : Z := 60.

(** The passes the loop may still make: its variant. *)
Definition remaining (elapsed : Z) : nat := Z.to_nat (max_wait - elapsed).

Opaque remaining.

(** The [while elapsed < max_wait] loop, entered with [n] polls already made.
    It yields the store object the variable [vector_store] holds when the
    loop is left. *)
Equations? wait_loop (w : world) (n : nat) (elapsed : Z) (vector_store : vector_store)
  : M Support.vector_store by wf (remaining elapsed) lt :=
wait_loop w n elapsed vector_store with Z_lt_dec elapsed max_wait := {
  | right _ => ret vector_store
  | left _ =>
      vector_store' <- call (VectorStoresGet (id vector_store)) (polled w n) ;;
      if (status vector_store' =? "completed")%string then
        print "✓ Vector store ready!" ;;;
        ret vector_store'
      else if (status vector_store' =? "failed")%string then
        raise (mkExn ExException "Vector store processing failed")
      else
        emit (Sleep 2) ;;;
        print_end "." "" ;;;
        wait_loop w (S n) (elapsed + 2) vector_store' }.
Proof.
  with_strategy transparent [remaining] (unfold remaining, max_wait in *); lia.
Qed.

Transparent remaining.

Definition upload_faq_to_vector_store (w : world) (faq_file_path : string)
  : M string :=
  try_except
    (print (Chat.nl ++ "📤 Uploading FAQ file to vector store...") ;;;
     call (OpenFile faq_file_path) (opened w) ;;;
     file <- call (FilesUpload "assistants") (uploaded w) ;;
     print ("✓ File uploaded with ID: " ++ file_id file) ;;;
     vector_store <- call (VectorStoresCreate "Life Insurance FAQ Knowledge Base"
                             (file_id file)) (created w) ;;
     print ("✓ Vector store created with ID: " ++ id vector_store) ;;;
     print "✓ Processing file in vector store..." ;;;
     vector_store <- wait_loop w 0 0 vector_store ;;
     ret (id vector_store))
    (fun e =>
       print ("❌ Error uploading FAQ file: " ++ str_exn e) ;;;
       raise e).

End Support.

(* ===================================================================== *)
(** ** openAI_cost_calculator.py *)
(* ===================================================================== *)

Module Cost.

(** *** Python floats

    A Python [float] is an IEEE 754 binary64 number, as Rocq's primitive
    floats are; [*] and [+] are the primitive operations. The three
    operations below go through the exact rational value, as CPython does. *)

(** The integer nearest to [a / b], ties to the even one ([0 <= a], [0 < b]). *)
Definition div_half_even (a b : Z) : Z :=
  let q := a / b in
  let r := a mod b in
  if 2 * r <? b then q
  else if b <? 2 * r then q + 1
  else if Z.even q then q else q + 1.

(** The binary64 number nearest to [a / b] ([0 < a], [0 < b]), ties to even,
    as mantissa and exponent; [None] when it exceeds the largest float. *)
Definition nearest_binary64 (a b : Z) : option (Z * Z) :=
  let floor_scaled (e : Z) :=
    if 0 <=? e then a / (b * 2 ^ e) else (a * 2 ^ (- e)) / b in
  let round_scaled (e : Z) :=
    if 0 <=? e then div_half_even a (b * 2 ^ e)
    else div_half_even (a * 2 ^ (- e)) b in
  let e0 := Z.log2 a - Z.log2 b - 52 in
  let e1 := if floor_scaled e0 <? 2 ^ 52 then e0 - 1 else e0 in
  let e2 := Z.max e1 (-1074) in
  let m := round_scaled e2 in
  let '(m, e) := if m =? 2 ^ 53 then (2 ^ 52, e2 + 1) else (m, e2) in
  if 971 <? e then None else Some (m, e).

Definition signed_zero (negative : bool) : float :=
  if negative then (-0)%float else 0%float.

Definition float_of (negative : bool) (m e : Z) : float :=
  if m =? 0 then signed_zero negative
  else SF2Prim (S754_finite negative (Z.to_pos m) e).

(** [a / b] on two [int]s: the correctly rounded quotient. *)
Definition int_truediv (a b : Z) : result float :=
  if b =? 0 then Raise (mkExn ExZeroDivisionError "division by zero")
  else
    let negative := xorb (a <? 0) (b <? 0) in
    if a =? 0 then Return (signed_zero negative)
    else
      match nearest_binary64 (Z.abs a) (Z.abs b) with
      | Some (m, e) => Return (float_of negative m e)
      | None =>
          Raise (mkExn ExOverflowError
                   "integer division result too large for a float")
      end.

(** The exact value of a finite nonzero float as a fraction. *)
Definition fraction_of (m : positive) (e : Z) : Z * Z :=
  if 0 <=? e then (Z.pos m * 2 ^ e, 1) else (Z.pos m, 2 ^ (- e)).

(** [|x| * 10^6] rounded to the nearest integer, ties to even. *)
Definition micro_units (m : positive) (e : Z) : Z :=
  let '(a, b) := fraction_of m e in div_half_even (a * 1000000) b.

(** [round(x, 6)]: the float nearest to the decimal with six places nearest
    to [x]. Zeros, infinities and NaN are returned as they are. With six
    places the result never exceeds the largest float. *)
Definition round6 (x : float) : float :=
  match Prim2SF x with
  | S754_finite s m e =>
      let n := micro_units m e in
      if n =? 0 then signed_zero s
      else
        match nearest_binary64 n 1000000 with
        | Some (m', e') => float_of s m' e'
        | None => x
        end
  | _ => x
  end.

(** The last six digits of [str(10^6 + r)], for [0 <= r < 10^6]. *)
Definition six_digits (r : Z) : string :=
  match str_of_Z (1000000 + r) with
  | String _ rest => rest
  | EmptyString => EmptyString
  end.

(** [f"{x:.6f}"] *)
Definition format_6f (x : float) : string :=
  match Prim2SF x with
  | S754_finite s m e =>
      let n := micro_units m e in
      (if s then "-" else "") ++ str_of_Z (n / 1000000) ++ "."
      ++ six_digits (n mod 1000000)
  | S754_zero s => (if s then "-" else "") ++ "0.000000"
  | S754_infinity s => (if s then "-" else "") ++ "inf"
  | S754_nan => "nan"
  end.

(** *** The pricing table and the calculator *)

Record pricing : Type := mkPricing {
  input_price_per_1m : float;
  output_price_per_1m : float
}.

#[warnings="-inexact-float"]
Definition OPENAI_PRICING : list (string * pricing) :=
  [("gpt-4o", mkPricing 2.50%float 10.00%float);
   ("gpt-4o-mini", mkPricing 0.150%float 0.600%float);
   ("gpt-4-turbo", mkPricing 10.00%float 30.00%float);
   ("gpt-4", mkPricing 30.00%float 60.00%float);
   ("gpt-3.5-turbo", mkPricing 0.50%float 1.50%float)].

(** [OPENAI_PRICING[model]], when [model in OPENAI_PRICING]. *)
Fixpoint lookup (model : string) (table : list (string * pricing))
  : option pricing :=
  match table with
  | [] => None
  | (k, v) :: rest => if (k =? model)%string then Some v else lookup model rest
  end.

Record CostRecord : Type := mkCostRecord {
  model : string;
  input_tokens : Z;
  output_tokens : Z;
  input_cost : float;
  output_cost : float;
  total_cost : float;
  timestamp : string
}.

Record OpenAICostCalculator : Type := mkCalculator {
  session_costs : list CostRecord
}.

(** [OpenAICostCalculator()] *)
Definition init : OpenAICostCalculator := mkCalculator [].

(** [self.calculate_cost(model, input_tokens, output_tokens)]: the calculator
    after the call, and what the call printed and returned or raised. [now]
    is [datetime.now().isoformat()]. *)
Definition calculate_cost (self : OpenAICostCalculator) (model : string)
  (input_tokens output_tokens : Z) (now : string)
  : OpenAICostCalculator * M CostRecord :=
  match lookup model OPENAI_PRICING with
  | None =>
      (self, raise (mkExn ExValueError
                      ("Model '" ++ model ++ "' not found in pricing table")))
  | Some pricing =>
      match int_truediv input_tokens 1000000 with
      | Raise e => (self, raise e)
      | Return input_millions =>
          let input_cost := (input_millions * input_price_per_1m pricing)%float in
          match int_truediv output_tokens 1000000 with
          | Raise e => (self, raise e)
          | Return output_millions =>
              let output_cost :=
                (output_millions * output_price_per_1m pricing)%float in
              let total_cost := (input_cost + output_cost)%float in
              let cost_record :=
                mkCostRecord model input_tokens output_tokens
                  (round6 input_cost) (round6 output_cost) (round6 total_cost)
                  now in
              (mkCalculator (session_costs self ++ [cost_record])%list,
               print ("[LLM] " ++ model ++ " | Input: " ++ str_of_Z input_tokens
                      ++ " | Output: " ++ str_of_Z output_tokens
                      ++ " | Cost: $" ++ format_6f total_cost) ;;;
               ret cost_record)
          end
      end
  end.

End Cost.

(* ===================================================================== *)
(** ** agent_lead_processing_setup.py: the entry point *)
(* ===================================================================== *)

Module LeadSetupMain.

Section Program.

Variable getenv : string -> option string.

Definition AZURE_TENANT_ID : option string := getenv "AZURE_TENANT_ID".
Definition project_endpoint : option string := getenv "AI_FOUNDARY_ENDPOINT".
Definition model_deployment_name : option string :=
  getenv "MODEL_DEPLOYMENT_NAME".

(** [len(openapi_spec['paths'])] *)
Definition endpoint_count : Z :=
  Z.of_nat (List.length
              (LeadSetup.entries
                 (LeadSetup.at_path (LeadSetup.openapi_spec getenv) ["paths"]))).

(** [main()]. As in lead_processing.py, the instruction text and the tool
    definitions handed to [create_agent] are not part of the event. *)
Definition main (w : LeadProcessing.world) : M unit :=
  try_except
    ((if (negb (truthy project_endpoint) || negb (truthy model_deployment_name))%bool
      then raise (mkExn ExValueError
        "AI_FOUNDARY_ENDPOINT and MODEL_DEPLOYMENT_NAME environment variables must be set.")
      else ret tt) ;;;
     (if (negb (truthy (LeadSetup.azure_function_base_url getenv))
          || negb (truthy (LeadSetup.azure_function_code getenv)))%bool
      then raise (mkExn ExValueError
        "AZURE_FUNCTION_BASE_URL and AZURE_FUNCTION_CODE environment variables must be set.")
      else ret tt) ;;;
     emit (Connect project_endpoint AZURE_TENANT_ID) ;;;
     ag <- call (CreateAgent (fmt_opt model_deployment_name) "Lead_Generation_Agent")
             (LeadProcessing.agent_answer w) ;;
     print ("✓ Successfully created agent: '" ++ LeadProcessing.agent_name ag
            ++ "' with ID: " ++ LeadProcessing.agent_id ag) ;;;
     print ("✓ OpenAPI tool LeadManagementAPI configured with "
            ++ str_of_Z endpoint_count ++ " endpoints") ;;;
     th <- call ThreadsCreate (LeadProcessing.thread_answer w) ;;
     print ("✓ Created conversation thread with ID: "
            ++ LeadProcessing.thread_id th ++ Chat.nl) ;;;
     print (Chat.str_mul "=" 60))
    (fun e =>
       print (Chat.nl ++ "❌ An error occurred: " ++ str_exn e) ;;;
       emit PrintTraceback).

End Program.

End LeadSetupMain.

(* ===================================================================== *)
(** ** agent_insurance_customer_support.py: the agent setup *)
(* ===================================================================== *)

Module SupportSetup.

Import LeadProcessing (agent).

Definition AGENT_NAME_TO_CONNECT : string := "Lead_Generation_Agent".

(** What iterating over [client.list_agents()] yields: agents one by one,
    until the listing ends or a request for its next page raises. *)
Inductive paged : Type :=
| PageEnd
| PageItem (a : agent) (rest : paged)
| PageFails (e : exn).

(** The [for agent in agents] loop with what follows it. *)
Fixpoint search_agents (agents : paged) : M (option string) :=
  match agents with
  | PageEnd =>
      print "⚠ Lead Generation Agent not found. Please create it first using agent_setup.py" ;;;
      ret None
  | PageItem a rest =>
      if (LeadProcessing.agent_name a =? AGENT_NAME_TO_CONNECT)%string then
        print ("✓ Found " ++ AGENT_NAME_TO_CONNECT ++ ": "
               ++ LeadProcessing.agent_id a) ;;;
        ret (Some (LeadProcessing.agent_id a))
      else search_agents rest
  | PageFails e => raise e
  end.

Definition get_lead_generation_agent_id (agents : paged) : M (option string) :=
  try_except
    (print (Chat.nl ++ "🔍 Looking for Lead Generation Agent...") ;;;
     search_agents agents)
    (fun e =>
       print ("❌ Error retrieving Lead Generation Agent: " ++ str_exn e) ;;;
       ret None).

(** A [FileSearchTool], by the stores it searches. *)
Record file_search_tool : Type := mkFileSearchTool {
  vector_store_ids : list string
}.

Definition create_file_search_tool (vector_store_id : string)
  : M file_search_tool :=
  let tool := mkFileSearchTool [vector_store_id] in
  print ("✓ File search tool created with vector store: " ++ vector_store_id) ;;;
  ret tool.

(** What the outside world answers during one setup. *)
Record world : Type := mkWorld {
  file_exists : bool;
  upload : Support.world;
  listing : paged;
  agent_created : result agent
}.

Section Program.

Variable getenv : string -> option string.

Definition AZURE_TENANT_ID : option string := getenv "AZURE_TENANT_ID".
Definition project_endpoint : option string := getenv "AI_FOUNDARY_ENDPOINT".
Definition model_deployment_name : option string :=
  getenv "MODEL_DEPLOYMENT_NAME".

(** [create_faq_agent]: one [create_agent] call and a line of output. The
    instruction text and the tool definitions are not part of the event. *)
Definition create_faq_agent (vector_store_id : string) (tool : file_search_tool)
  (lead_agent_id : option string) (answer : result agent) : M agent :=
  ag <- call (CreateAgent (fmt_opt model_deployment_name)
                "Life_Insurance_Customer_Support_Agent") answer ;;
  print (Chat.nl ++ "✓ Successfully created FAQ Agent: '"
         ++ LeadProcessing.agent_name ag ++ "' (ID: "
         ++ LeadProcessing.agent_id ag ++ ")") ;;;
  ret ag.

(** [create_life_insurance_faq_agent(faq_file_path)]: the agent and the
    vector store id, or [None] for the triple of [None]s. *)
Definition create_life_insurance_faq_agent (w : world) (faq_file_path : string)
  : M (option (agent * string)) :=
  try_except
    ((if negb (file_exists w)
      then raise (mkExn ExOSError ("FAQ file not found: " ++ faq_file_path))
      else ret tt) ;;;
     (if (negb (truthy project_endpoint) || negb (truthy model_deployment_name))%bool
      then raise (mkExn ExValueError
        "AI_FOUNDARY_ENDPOINT and MODEL_DEPLOYMENT_NAME must be set")
      else ret tt) ;;;
     print (Chat.str_mul "=" 60) ;;;
     print "Life Insurance FAQ Agent Setup" ;;;
     print (Chat.str_mul "=" 60) ;;;
     emit (Connect project_endpoint AZURE_TENANT_ID) ;;;
     print "✓ Connected to Azure AI Foundry" ;;;
     vector_store_id <- Support.upload_faq_to_vector_store (upload w) faq_file_path ;;
     tool <- create_file_search_tool vector_store_id ;;
     lead_agent_id <- get_lead_generation_agent_id (listing w) ;;
     (if truthy lead_agent_id
      then print "✓ Will enable connected agent functionality"
      else print "⚠ Connected agent functionality will be disabled") ;;;
     ag <- create_faq_agent vector_store_id tool lead_agent_id (agent_created w) ;;
     print (Chat.nl ++ Chat.str_mul "=" 60) ;;;
     print "Setup Complete!" ;;;
     print (Chat.str_mul "=" 60) ;;;
     print ("Agent Name: " ++ LeadProcessing.agent_name ag) ;;;
     print ("Agent ID: " ++ LeadProcessing.agent_id ag) ;;;
     print ("Vector Store ID: " ++ vector_store_id) ;;;
     (if truthy lead_agent_id
      then print ("Connected to Lead Agent ID: " ++ fmt_opt lead_agent_id)
      else ret tt) ;;;
     print (Chat.nl ++ "You can now use this agent in your chat interface.") ;;;
     print (Chat.str_mul "=" 60) ;;;
     ret (Some (ag, vector_store_id)))
    (fun e =>
       print (Chat.nl ++ "❌ Setup failed: " ++ str_exn e) ;;;
       emit PrintTraceback ;;;
       ret None).

(** The [if __name__ == "__main__":] block. *)
Definition dunder_main (w : world) : M unit :=
  made <- create_life_insurance_faq_agent w
            "LifeInsuranceFAQ_CustomerSupportAgent.txt" ;;
  match made with
  | Some (ag, vector_store_id) =>
      print (Chat.nl ++ "📋 Save these for later use:") ;;;
      print ("   Agent ID: " ++ LeadProcessing.agent_id ag) ;;;
      print ("   Vector Store ID: " ++ vector_store_id)
  | None => ret tt
  end.

End Program.

End SupportSetup.

(* ===================================================================== *)
(** ** openAI_cost_calculator.py: the session summary *)
(* ===================================================================== *)

Module CostSummary.

Import Cost.

(** The dictionary [get_session_summary] returns: the one with the key
    [message], or the one with the totals. *)
Inductive summary : Type :=
| NoRecords (message : string)
| Totals (total_calls total_input_tokens total_output_tokens : Z)
    (total_cost : float) (individual_calls : list CostRecord).

(** [sum(...)] over [int]s *)
Definition sum_ints (l : list Z) : Z := fold_left Z.add l 0.

Section Summary.

(** [sum(...)] over the floats of a nonempty list. How the built-in adds
    floats differs between versions of Python, so it is left open. *)
Variable sum_floats : list float -> float.

Definition get_session_summary (self : OpenAICostCalculator) : summary :=
  match session_costs self with
  | [] => NoRecords "No cost records in this session"
  | _ :: _ =>
      let total_input := sum_ints (map input_tokens (session_costs self)) in
      let total_output := sum_ints (map output_tokens (session_costs self)) in
      let total_cost := sum_floats (map Cost.total_cost (session_costs self)) in
      Totals (Z.of_nat (List.length (session_costs self)))
        total_input total_output (round6 total_cost) (session_costs self)
  end.

End Summary.

End CostSummary.

(* ===================================================================== *)
(** ** eval.py *)
(* ===================================================================== *)

Module Eval.

(** What [create_mock_jsonl_dataset] does to the outside world. *)
Inductive io : Type :=
| Out (text : string)
| OpenForWriting (path : string)
| FileWrite (text : string).

Section Dataset.

(** [json.dumps]: the text of an item, or the exception for an item that
    cannot be serialised. *)
Variable dumps : pyval -> result string.

(** The [for item in data] loop. Writing to the opened file succeeds. *)
Fixpoint write_items (data : list pyval) : list io * result unit :=
  match data with
  | [] => ([], Return tt)
  | item :: rest =>
      match dumps item with
      | Raise e => ([], Raise e)
      | Return text =>
          let (out, r) := write_items rest in
          (FileWrite (text ++ Chat.nl) :: out, r)
      end
  end.

(** [create_mock_jsonl_dataset(file_path, data)]; [opened] is what
    [open(file_path, 'w')] does. *)
Definition create_mock_jsonl_dataset (file_path : string) (data : list pyval)
  (opened : result unit) : list io * result unit :=
  let start := [Out (("-> Creating mock dataset at " ++ file_path) ++ Chat.nl);
                OpenForWriting file_path] in
  let failed (e : exn) :=
    [Out (("Error creating dataset file: " ++ str_exn e) ++ Chat.nl)] in
  match opened with
  | Raise e => ((start ++ failed e)%list, Return tt)
  | Return _ =>
      match write_items data with
      | (out, Return _) =>
          ((start ++ out ++ [Out ("-> Dataset created successfully." ++ Chat.nl)])%list,
           Return tt)
      | (out, Raise e) => ((start ++ out ++ failed e)%list, Return tt)
      end
  end.

End Dataset.

(** The text a file holds after the writes of a run. *)
Fixpoint file_text (evs : list io) : string :=
  match evs with
  | [] => ""
  | FileWrite text :: rest => text ++ file_text rest
  | _ :: rest => file_text rest
  end.

End Eval.

(* ===================================================================== *)
(** * Properties *)
(* ===================================================================== *)

(** ** The backend tools of lead_processing.py *)

Section ToolProperties.

Import LeadProcessing Requests.

Variable getenv : string -> option string.

(** The ways one call to the backend fails before a JSON object is at hand:
    [requests.post] raises (timeout, connection error), the status is a
    client or server error, the body is not JSON, or it is JSON but not an
    object. *)
Inductive request_fails : post_outcome -> Prop :=
| fails_raised (e : exn) :
    request_fails (PostRaises e)
| fails_status (r : response) :
    400 <= status_code r < 600 -> request_fails (PostReturns r)
| fails_decode (r : response) (e : exn) :
    json_result r = Raise e -> request_fails (PostReturns r)
| fails_not_object (r : response) (v : pyval) :
    json_result r = Return v -> (forall d, v <> PDict d) ->
    request_fails (PostReturns r).

(** The call answers with a JSON object and no error status. *)
Definition answers_object (net : post_outcome) (d : list (string * pyval)) : Prop :=
  exists r, net = PostReturns r /\ ~ (400 <= status_code r < 600)
            /\ json_result r = Return (PDict d).

Lemma raise_for_status_error (r : response) :
  400 <= status_code r < 600 ->
  exists msg, raise_for_status r = ([], Raise (mkExn ExHTTPError msg)).
Proof.
  intros Hs. unfold raise_for_status.
  destruct ((400 <=? status_code r) && (status_code r <? 500))%bool eqn:E4.
  - eexists; reflexivity.
  - destruct ((500 <=? status_code r) && (status_code r <? 600))%bool eqn:E5.
    + eexists; reflexivity.
    + exfalso.
      apply andb_false_iff in E4. apply andb_false_iff in E5.
      destruct E4 as [E4|E4], E5 as [E5|E5]; lia.
Qed.

Lemma raise_for_status_ok (r : response) :
  ~ (400 <= status_code r < 600) -> raise_for_status r = ([], Return tt).
Proof.
  intros Hs. unfold raise_for_status.
  destruct ((400 <=? status_code r) && (status_code r <? 500))%bool eqn:E4.
  - apply andb_true_iff in E4. lia.
  - destruct ((500 <=? status_code r) && (status_code r <? 600))%bool eqn:E5.
    + apply andb_true_iff in E5. lia.
    + reflexivity.
Qed.

Lemma status_dec (r : response) :
  {400 <= status_code r < 600} + {~ (400 <= status_code r < 600)}.
Proof.
  destruct (Z_le_dec 400 (status_code r)); destruct (Z_lt_dec (status_code r) 600);
    (left; lia) || (right; lia).
Qed.

(** Rewrites the status check of a tool once the status is known. *)
Ltac status_known H :=
  first [ destruct (raise_for_status_error _ H) as [? ->]
        | rewrite (raise_for_status_ok _ H) ].

(** What [generate_quote_id] returns, case by case. *)
Lemma generate_quote_id_cases (dummy : string) (net : post_outcome) :
  (request_fails net ->
   exists msg, outcome (generate_quote_id getenv dummy net)
               = Return (PStr ("Error: Could not generate quote ID. " ++ msg)))
  /\ (forall d, answers_object net d ->
       outcome (generate_quote_id getenv dummy net)
       = Return (match assoc "quote_id" d with Some v => v | None => PStr "" end)).
Proof.
  split.
  - intros Hf. unfold generate_quote_id.
    destruct Hf as [e | r Hs | r e He | r v Hv Hd].
    + eexists; reflexivity.
    + cbn. status_known Hs. cbn. eexists; reflexivity.
    + cbn. destruct (status_dec r) as [Hs|Hs]; status_known Hs; cbn.
      * eexists; reflexivity.
      * unfold json. rewrite He. cbn. eexists; reflexivity.
    + cbn. destruct (status_dec r) as [Hs|Hs]; status_known Hs; cbn.
      * eexists; reflexivity.
      * unfold json. rewrite Hv. cbn.
        destruct v; cbn; try (eexists; reflexivity).
        exfalso. eapply Hd. reflexivity.
  - intros d (r & -> & Hs & Hj). unfold generate_quote_id. cbn.
    status_known Hs. cbn. unfold json. rewrite Hj. reflexivity.
Qed.

(** A reply with a success status and a JSON object for body. *)
Lemma success_answers_object (r : response) (d : list (string * pyval)) :
  200 <= status_code r < 300 -> json_result r = Return (PDict d) ->
  answers_object (PostReturns r) d.
Proof. intros Hs Hj. exists r. repeat split; trivial; lia. Qed.

Lemma update_cosmos_db_object
  (quote_id full_name email phone_number : string) (age : Z) (location : string)
  (net : post_outcome) (d : list (string * pyval)) :
  answers_object net d ->
  outcome (update_cosmos_db getenv quote_id full_name email phone_number age
             location net)
  = Return (match assoc "message" d with
            | Some v => v
            | None => PStr "Success: Lead information has been saved to the database."
            end).
Proof.
  intros (r & -> & Hs & Hj). unfold update_cosmos_db. cbn.
  status_known Hs. cbn. unfold json. rewrite Hj. reflexivity.
Qed.

Lemma send_email_notification_object (to_email quote_id full_name : string)
  (net : post_outcome) (d : list (string * pyval)) :
  answers_object net d ->
  outcome (send_email_notification getenv to_email quote_id full_name net)
  = Return (match assoc "message" d with
            | Some v => v
            | None => PStr "Success: Email notification sent."
            end).
Proof.
  intros (r & -> & Hs & Hj). unfold send_email_notification. cbn.
  status_known Hs. cbn. unfold json. rewrite Hj. reflexivity.
Qed.

(** Every reply either fails before an object is at hand or carries one. *)
Lemma reply_cases (net : post_outcome) :
  request_fails net \/ exists d, answers_object net d.
Proof.
  destruct net as [e | r].
  - left. constructor.
  - destruct (status_dec r) as [Hs|Hs].
    + left. now apply fails_status.
    + destruct (json_result r) as [v|e] eqn:Hj.
      * destruct v;
          try (left; eapply fails_not_object; [eassumption | discriminate]).
        right. exists d, r. auto.
      * left. eapply fails_decode; eassumption.
Qed.

(** The handlers of the three tools end in [return]: whatever the backend
    does, no tool raises. *)
Lemma tools_never_raise (net : post_outcome) :
  (forall dummy, exists v,
      outcome (generate_quote_id getenv dummy net) = Return v)
  /\ (forall quote_id full_name email phone_number age location, exists v,
      outcome (update_cosmos_db getenv quote_id full_name email phone_number
                 age location net) = Return v)
  /\ (forall to_email quote_id full_name, exists v,
      outcome (send_email_notification getenv to_email quote_id full_name net)
      = Return v).
Proof.
  repeat split; intros.
  - destruct (reply_cases net) as [Hf | [d Hd]].
    + destruct (proj1 (generate_quote_id_cases dummy net) Hf) as [msg ->].
      eexists; reflexivity.
    + rewrite (proj2 (generate_quote_id_cases dummy net) d Hd).
      eexists; reflexivity.
  - destruct (reply_cases net) as [Hf | [d Hd]].
    + unfold update_cosmos_db.
      destruct Hf as [e | r Hs | r e He | r v Hv Hn]; cbn.
      * destruct (is_Timeout e); [| destruct (is_RequestException e)];
          eexists; reflexivity.
      * status_known Hs. cbn. eexists; reflexivity.
      * destruct (status_dec r) as [Hs|Hs]; status_known Hs; cbn.
        -- eexists; reflexivity.
        -- unfold json. rewrite He. cbn.
           destruct (is_Timeout e); [| destruct (is_RequestException e)];
             eexists; reflexivity.
      * destruct (status_dec r) as [Hs|Hs]; status_known Hs; cbn.
        -- eexists; reflexivity.
        -- unfold json. rewrite Hv. destruct v; cbn; eexists; reflexivity.
    + rewrite (update_cosmos_db_object _ _ _ _ _ _ _ _ Hd). eexists; reflexivity.
  - destruct (reply_cases net) as [Hf | [d Hd]].
    + unfold send_email_notification.
      destruct Hf as [e | r Hs | r e He | r v Hv Hn]; cbn.
      * eexists; reflexivity.
      * status_known Hs. cbn. eexists; reflexivity.
      * destruct (status_dec r) as [Hs|Hs]; status_known Hs; cbn.
        -- eexists; reflexivity.
        -- unfold json. rewrite He. cbn. eexists; reflexivity.
      * destruct (status_dec r) as [Hs|Hs]; status_known Hs; cbn.
        -- eexists; reflexivity.
        -- unfold json. rewrite Hv. destruct v; cbn; eexists; reflexivity.
    + rewrite (send_email_notification_object _ _ _ _ _ Hd). eexists; reflexivity.
Qed.

End ToolProperties.

(** Replies used as concrete inputs. *)
Definition ok_reply (body : pyval) : Requests.post_outcome :=
  Requests.PostReturns
    (Requests.mkResponse 200 "OK" "https://leads.example/api" (Return body)).

Definition no_env : string -> option string := fun _ => None.

(** C2 (the code departs from the claim). No tool ever raises, whatever the
    backend does; but what a tool returns is the JSON value found under the
    key, whatever its type: on a 200 reply whose body is the object with
    [quote_id] set to the number 42, [generate_quote_id] returns the integer
    42, and on a body whose [message] is [null] the two other tools return
    [None], neither of which is a string. *)
Theorem tools_return_the_field_whatever_its_type
  (getenv : string -> option string) :
  (forall net,
     (forall dummy, exists v,
        outcome (LeadProcessing.generate_quote_id getenv dummy net) = Return v)
     /\ (forall quote_id full_name email phone_number age location, exists v,
        outcome (LeadProcessing.update_cosmos_db getenv quote_id full_name email
                   phone_number age location net) = Return v)
     /\ (forall to_email quote_id full_name, exists v,
        outcome (LeadProcessing.send_email_notification getenv to_email quote_id
                   full_name net) = Return v))
  /\ outcome (LeadProcessing.generate_quote_id getenv "trigger"
                (ok_reply (PDict [("quote_id", PInt 42)]))) = Return (PInt 42)
  /\ is_str (PInt 42) = false
  /\ outcome (LeadProcessing.update_cosmos_db getenv "q-1" "Ada Lovelace"
                "ada@example.com" "555-0100" 36 "London, UK"
                (ok_reply (PDict [("message", PNone)]))) = Return PNone
  /\ outcome (LeadProcessing.send_email_notification getenv "ada@example.com"
                "q-1" "Ada Lovelace"
                (ok_reply (PDict [("message", PNone)]))) = Return PNone
  /\ is_str PNone = false.
Proof.
  split; [ intros net; apply tools_never_raise | ].
  repeat split.
Qed.

(** C3, as the code has it. When the call fails before a JSON object is at
    hand (the request raises, the status is 4xx or 5xx, the body is not JSON
    or not an object), [generate_quote_id] returns a string that starts with
    "Error: ". When the reply is a JSON object without [quote_id], it returns
    the empty string, the default of its [get]. *)
Theorem generate_quote_id_failure_results
  (getenv : string -> option string) (dummy : string)
  (net : Requests.post_outcome) :
  (request_fails net ->
   exists s, outcome (LeadProcessing.generate_quote_id getenv dummy net)
             = Return (PStr s)
             /\ startswith s "Error: " = true)
  /\ (forall d, answers_object net d -> assoc "quote_id" d = None ->
      outcome (LeadProcessing.generate_quote_id getenv dummy net)
      = Return (PStr "")).
Proof.
  split.
  - intros Hf.
    destruct (proj1 (generate_quote_id_cases getenv dummy net) Hf) as [msg ->].
    eexists; split; reflexivity.
  - intros d Hd Hq.
    rewrite (proj2 (generate_quote_id_cases getenv dummy net) d Hd), Hq.
    reflexivity.
Qed.

Lemma generate_quote_id_failure_results_witness :
  (exists s, outcome (LeadProcessing.generate_quote_id no_env "trigger"
                        (Requests.PostRaises (mkExn ExTimeout "Read timed out.")))
             = Return (PStr s)
             /\ startswith s "Error: " = true)
  /\ outcome (LeadProcessing.generate_quote_id no_env "trigger"
                (ok_reply (PDict [("status", PStr "ok")])))
     = Return (PStr "").
Proof.
  split.
  - apply (proj1 (generate_quote_id_failure_results no_env "trigger"
                    (Requests.PostRaises (mkExn ExTimeout "Read timed out.")))).
    constructor.
  - apply (proj2 (generate_quote_id_failure_results no_env "trigger"
                    (ok_reply (PDict [("status", PStr "ok")])))
             [("status", PStr "ok")]).
    + apply success_answers_object; [cbn; lia | reflexivity].
    + reflexivity.
Defined.

(** C3 as stated fails: a 200 reply whose body is the empty JSON object lacks
    [quote_id], and the tool returns the empty string, which does not start
    with "Error: ". *)
Lemma generate_quote_id_missing_field_counterexample :
  answers_object (ok_reply (PDict [])) []
  /\ assoc "quote_id" [] = None
  /\ outcome (LeadProcessing.generate_quote_id no_env "trigger"
                (ok_reply (PDict []))) = Return (PStr "")
  /\ startswith "" "Error: " = false.
Proof.
  repeat split.
  apply success_answers_object; [cbn; lia | reflexivity].
Qed.

(** C8. On a 2xx reply whose JSON object has no [message] key,
    [update_cosmos_db] and [send_email_notification] return their own
    success sentences. *)
Theorem success_sentences_without_backend_message
  (getenv : string -> option string)
  (quote_id full_name email phone_number : string) (age : Z)
  (location to_email : string)
  (r : Requests.response) (d : list (string * pyval)) :
  200 <= Requests.status_code r < 300 ->
  Requests.json_result r = Return (PDict d) ->
  assoc "message" d = None ->
  outcome (LeadProcessing.update_cosmos_db getenv quote_id full_name email
             phone_number age location (Requests.PostReturns r))
  = Return (PStr "Success: Lead information has been saved to the database.")
  /\ outcome (LeadProcessing.send_email_notification getenv to_email quote_id
                full_name (Requests.PostReturns r))
     = Return (PStr "Success: Email notification sent.").
Proof.
  intros Hs Hj Hm.
  pose proof (success_answers_object r d Hs Hj) as Hd.
  rewrite (update_cosmos_db_object getenv _ _ _ _ _ _ _ _ Hd).
  rewrite (send_email_notification_object getenv _ _ _ _ _ Hd).
  rewrite Hm. split; reflexivity.
Qed.

Lemma success_sentences_without_backend_message_witness :
  outcome (LeadProcessing.update_cosmos_db no_env "q-1" "Ada Lovelace"
             "ada@example.com" "555-0100" 36 "London, UK"
             (ok_reply (PDict [("status", PStr "ok")])))
  = Return (PStr "Success: Lead information has been saved to the database.")
  /\ outcome (LeadProcessing.send_email_notification no_env "ada@example.com"
                "q-1" "Ada Lovelace" (ok_reply (PDict [("status", PStr "ok")])))
     = Return (PStr "Success: Email notification sent.").
Proof.
  apply (success_sentences_without_backend_message no_env "q-1" "Ada Lovelace"
           "ada@example.com" "555-0100" 36 "London, UK" "ada@example.com"
           (Requests.mkResponse 200 "OK" "https://leads.example/api"
              (Return (PDict [("status", PStr "ok")])))
           [("status", PStr "ok")]).
  - cbn. lia.
  - reflexivity.
  - reflexivity.
Defined.

(** ** The conversation drivers *)

Section DriverProperties.

Import LeadProcessing.

Lemma events_bind {A B} (m : M A) (k : A -> M B) :
  events (bind m k)
  = (events m ++ match outcome m with
                 | Return a => events (k a)
                 | Raise _ => []
                 end)%list.
Proof.
  destruct m as [out [a|e]]; cbn.
  - destruct (k a); reflexivity.
  - now rewrite app_nil_r.
Qed.

Lemma events_try_except {A} (body : M A) (handler : exn -> M A) :
  events (try_except body handler)
  = (events body ++ match outcome body with
                    | Return _ => []
                    | Raise e => events (handler e)
                    end)%list.
Proof.
  destruct body as [out [a|e]]; cbn.
  - now rewrite app_nil_r.
  - destruct (handler e); reflexivity.
Qed.

(** Splits the body of a prompt loop along its tests and along what the
    service answers. *)
Ltac split_turn t :=
  destruct t as [ln [[]|?] [[st le]|?] [[?|]|?]]; cbn in *;
  repeat match goal with
         | |- context [String.eqb ?a ?b] => destruct (String.eqb a b) eqn:?; cbn in *
         | |- context [Nat.eqb ?a ?b] => destruct (Nat.eqb a b) eqn:?; cbn in *
         end.

Lemma lead_loop_body_break (th : thread) (ag : agent) (t : turn) :
  outcome (LeadProcessing.loop_body th ag t) = Return Break
  <-> lower (line t) = "quit".
Proof.
  unfold LeadProcessing.loop_body. split.
  - intros H. apply String.eqb_eq.
    destruct (lower (line t) =? "quit")%string eqn:E; [reflexivity|].
    exfalso. revert H. cbn. rewrite E.
    split_turn t; discriminate.
  - intros H. apply String.eqb_eq in H. cbn. rewrite H. reflexivity.
Qed.

Lemma chat_loop_body_break (th : thread) (agent_id : string) (t : turn) :
  outcome (Chat.loop_body th agent_id t) = Return Break
  <-> lower (line t) = "quit".
Proof.
  unfold Chat.loop_body. split.
  - intros H. apply String.eqb_eq.
    destruct (lower (line t) =? "quit")%string eqn:E; [reflexivity|].
    exfalso. revert H. cbn. rewrite E.
    split_turn t; discriminate.
  - intros H. apply String.eqb_eq in H. cbn. rewrite H. reflexivity.
Qed.

(** At the loop itself: a quit line ends the loop with no further line read. *)
Lemma loops_stop_at_quit (th : thread) (ag : agent) (agent_id : string)
  (t : turn) (rest : list turn) :
  lower (line t) = "quit" ->
  prompt_loop th ag (t :: rest)
  = ([Stdin "Enter a prompt (or type 'quit' to exit): "], Return tt)
  /\ outcome (Chat.conversation_loop th agent_id (t :: rest)) = Return tt
  /\ stdin_reads (events (Chat.conversation_loop th agent_id (t :: rest))) = 1%nat.
Proof.
  intros H. apply String.eqb_eq in H.
  cbn. unfold LeadProcessing.loop_body, Chat.loop_body. cbn. rewrite H. cbn.
  repeat split.
Qed.

(** The chat driver reports a failed run: when the three calls of a pass
    succeed and the run comes back failed, the pass ends by printing the
    stored error. *)
Lemma chat_reports_failed_run (th : thread) (agent_id ln : string) (r : run)
  (last_msg : option string) :
  lower ln <> "quit" -> strip ln <> "" -> status r = "failed" ->
  exists before,
    stdout_of (events (Chat.loop_body th agent_id
                         (mkTurn ln (Return tt) (Return r) (Return last_msg))))
    = (before
       ++ [(("⚠ Run failed: " ++ last_error r ++ Chat.nl) ++ Chat.nl)%string])%list.
Proof.
  intros Hq Hs Hf. unfold Chat.loop_body.
  apply String.eqb_neq in Hq.
  destruct r as [st le]. cbn in Hf. subst st.
  cbn. rewrite Hq.
  destruct (strip ln) as [|c rest] eqn:Es; [congruence|]. cbn.
  destruct last_msg; cbn; eexists [_; _]; reflexivity.
Qed.

(** The prompt loop of lead_processing.py never looks at the run: what it
    prints is the same whatever the status and the stored error are. *)
Lemma lead_loop_ignores_run (th : thread) (ag : agent) (ln : string)
  (created : result unit) (r r' : run) (last_msg : result (option string)) :
  stdout_of (events (LeadProcessing.loop_body th ag
                       (mkTurn ln created (Return r) last_msg)))
  = stdout_of (events (LeadProcessing.loop_body th ag
                         (mkTurn ln created (Return r') last_msg))).
Proof.
  unfold LeadProcessing.loop_body. cbn.
  destruct (lower ln =? "quit")%string; [reflexivity|].
  destruct (String.length ln =? 0)%nat; [reflexivity|].
  destruct created as [[]|e]; cbn; [|reflexivity].
  destruct last_msg as [[v|]|e]; reflexivity.
Qed.

End DriverProperties.

(** A pass in which the run fails and leaves no agent message. *)
Definition failed_turn : LeadProcessing.turn :=
  LeadProcessing.mkTurn "I would like a quote" (Return tt)
    (Return (LeadProcessing.mkRun "failed" "rate_limit_exceeded"))
    (Return None).

(** C4 (the code departs from the claim in one driver). On a pass whose run
    comes back failed with a stored error and no agent message, the chat
    driver prints the stored error, and the prompt loop of lead_processing.py
    prints nothing at all. *)
Theorem failed_run_reported_by_chat_driver_only
  (th : LeadProcessing.thread) (ag : LeadProcessing.agent) (agent_id : string) :
  stdout_of (events (Chat.loop_body th agent_id failed_turn))
  = [Chat.nl ++ "Agent: ";
     "No response from agent." ++ Chat.nl ++ Chat.nl;
     "⚠ Run failed: rate_limit_exceeded" ++ Chat.nl ++ Chat.nl]
  /\ stdout_of (events (LeadProcessing.loop_body th ag failed_turn)) = [].
Proof. split; reflexivity. Qed.

(** One pass of either input loop: it ends in [break] exactly when the line
    in lower case is "quit"; on the empty line it prints the retry prompt and
    goes on, with no message appended and no run started. *)
Lemma input_loops_quit_and_empty_line
  (th : LeadProcessing.thread) (ag : LeadProcessing.agent) (agent_id : string)
  (t : LeadProcessing.turn)
  (created : result unit) (processed : result LeadProcessing.run)
  (last_msg : result (option string)) :
  (outcome (LeadProcessing.loop_body th ag t) = Return LeadProcessing.Break
   <-> lower (LeadProcessing.line t) = "quit")
  /\ (outcome (Chat.loop_body th agent_id t) = Return LeadProcessing.Break
      <-> lower (LeadProcessing.line t) = "quit")
  /\ LeadProcessing.loop_body th ag
       (LeadProcessing.mkTurn "" created processed last_msg)
     = ([Stdin "Enter a prompt (or type 'quit' to exit): ";
         Stdout ("Please enter a prompt." ++ Chat.nl)],
        Return LeadProcessing.Continue)
  /\ Chat.loop_body th agent_id
       (LeadProcessing.mkTurn "" created processed last_msg)
     = ([Stdin "Your Input: ";
         Stdout ("Please enter a message." ++ Chat.nl ++ Chat.nl)],
        Return LeadProcessing.Continue).
Proof.
  split; [apply lead_loop_body_break|].
  split; [apply chat_loop_body_break|].
  split; reflexivity.
Qed.

(** ** The entry point of the chat interface *)

(** An event that names an agent names [id]. *)
Definition names_agent (id : string) (ev : event) : Prop :=
  match ev with
  | GetAgent a => a = id
  | RunsCreateAndProcess _ a => a = id
  | _ => True
  end.

Lemma chat_loop_body_names_agent (th : LeadProcessing.thread) (id : string)
  (t : LeadProcessing.turn) :
  Forall (names_agent id) (events (Chat.loop_body th id t)).
Proof.
  unfold Chat.loop_body.
  destruct t as [ln [[]|?] [[st le]|?] [[?|]|?]]; cbn;
    destruct (lower ln =? "quit")%string; cbn;
    try destruct (String.length _ =? 0)%nat; cbn;
    try destruct (st =? "failed")%string; cbn;
    repeat constructor.
Qed.

Lemma conversation_loop_names_agent (th : LeadProcessing.thread) (id : string)
  (turns : list LeadProcessing.turn) :
  Forall (names_agent id) (events (Chat.conversation_loop th id turns)).
Proof.
  induction turns as [|t rest IH]; cbn [Chat.conversation_loop].
  - repeat constructor.
  - rewrite events_bind. apply Forall_app. split.
    + apply chat_loop_body_names_agent.
    + destruct (outcome (Chat.loop_body th id t)) as [[|]|e]; cbn.
      * constructor.
      * exact IH.
      * constructor.
Qed.

Lemma run_chat_interface_names_agent (getenv : string -> option string)
  (id : string) (s : Chat.session) :
  Forall (names_agent id) (events (Chat.run_chat_interface getenv id s)).
Proof.
  unfold Chat.run_chat_interface, Chat.build_client.
  destruct (Chat.PROJECT_ENDPOINT getenv) as [ep|]; [|repeat constructor].
  destruct s as [[[]|ce] ee [[ag|e] [th|e'] turns]]; cbn;
    try (repeat constructor).
  pose proof (conversation_loop_names_agent th id turns) as H.
  destruct (Chat.conversation_loop th id turns) as [out [[]|e'']];
    cbn in *; repeat constructor; trivial.
  apply Forall_app. split; [assumption | repeat constructor].
Qed.

(** C7. The entry point connects with the compiled-in [AGENT_ID]. Every
    event of the session that names an agent names the constant; once the
    client is built (the endpoint is set and the constructors return), the
    next thing the session does is [get_agent] on the constant; when the
    endpoint is not set, the client cannot be built and no agent is asked
    for; and the session is the same under any two environments that differ
    only in the variable AGENT_ID. *)
Theorem entry_point_connects_with_hardcoded_agent_id
  (getenv : string -> option string) (s : Chat.session) :
  Chat.AGENT_ID = "asst_xS4WzzjvAasllgAnOYPiWFe2"
  /\ Forall (names_agent Chat.AGENT_ID) (events (Chat.dunder_main getenv s))
  /\ (forall endpoint,
        getenv "AI_FOUNDARY_ENDPOINT" = Some endpoint ->
        Chat.client_answer s = Return tt ->
        exists later,
          events (Chat.dunder_main getenv s)
          = Connect (Some endpoint) (getenv "AZURE_TENANT_ID")
            :: GetAgent Chat.AGENT_ID :: later)
  /\ (getenv "AI_FOUNDARY_ENDPOINT" = None ->
      Chat.dunder_main getenv s
      = ([Connect None (getenv "AZURE_TENANT_ID");
          Stdout ((Chat.nl ++ "❌ An error occurred: "
                   ++ str_exn (Chat.endpoint_error s)) ++ Chat.nl);
          PrintTraceback], Return tt))
  /\ (forall getenv' : string -> option string,
        (forall k, k <> "AGENT_ID" -> getenv' k = getenv k) ->
        Chat.dunder_main getenv' s = Chat.dunder_main getenv s).
Proof.
  split; [reflexivity|].
  split; [apply run_chat_interface_names_agent|].
  split; [|split].
  - intros endpoint He Hc.
    unfold Chat.dunder_main, Chat.run_chat_interface, Chat.build_client,
      Chat.PROJECT_ENDPOINT, Chat.AZURE_TENANT_ID.
    rewrite He, Hc.
    destruct (Chat.service s) as [[ag|e] [th|e'] turns]; cbn;
      try destruct (Chat.conversation_loop _ _ _) as [out [[]|e'']];
      eexists; reflexivity.
  - intros He.
    unfold Chat.dunder_main, Chat.run_chat_interface, Chat.build_client,
      Chat.PROJECT_ENDPOINT, Chat.AZURE_TENANT_ID.
    rewrite He. reflexivity.
  - intros getenv' Hsame.
    unfold Chat.dunder_main, Chat.run_chat_interface,
      Chat.PROJECT_ENDPOINT, Chat.AZURE_TENANT_ID.
    rewrite !Hsame by discriminate. reflexivity.
Qed.

(** ** The quote-id endpoint: how it is called and how it is declared *)

Lemma generate_quote_id_events (getenv : string -> option string)
  (dummy : string) (net : Requests.post_outcome) :
  events (LeadProcessing.generate_quote_id getenv dummy net)
  = [HttpPost (fmt_opt (LeadProcessing.AZURE_FUNCTION_BASE_URL getenv)
               ++ "/generate-quote-id?code="
               ++ fmt_opt (LeadProcessing.AZURE_FUNCTION_CODE getenv))
       None 30].
Proof.
  unfold LeadProcessing.generate_quote_id.
  destruct net as [e | r]; [reflexivity|]. cbn.
  destruct (status_dec r) as [Hs|Hs].
  - destruct (raise_for_status_error _ Hs) as [msg ->]. reflexivity.
  - rewrite (raise_for_status_ok _ Hs). cbn. unfold Requests.json.
    destruct (Requests.json_result r) as [v|e]; [destruct v|]; reflexivity.
Qed.

(** C5, as the code has it. The function tool calls the endpoint with one
    POST to the base URL followed by /generate-quote-id?code= and the
    function code, and returns the [quote_id] field of the JSON object in
    the reply. The OpenAPI document declares the operation as a GET on
    /api/generate-quote-id, with [code] its one required query parameter and
    a 200 reply that is an object with a string property [quote_id]. *)
Theorem quote_id_endpoint_called_and_declared
  (getenv : string -> option string) (dummy : string)
  (net : Requests.post_outcome) :
  events (LeadProcessing.generate_quote_id getenv dummy net)
  = [HttpPost (fmt_opt (getenv "AZURE_FUNCTION_BASE_URL")
               ++ "/generate-quote-id?code="
               ++ fmt_opt (getenv "AZURE_FUNCTION_CODE"))
       None 30]
  /\ (forall d, answers_object net d ->
      outcome (LeadProcessing.generate_quote_id getenv dummy net)
      = Return (match assoc "quote_id" d with Some v => v | None => PStr "" end))
  /\ LeadSetup.declares (LeadSetup.openapi_spec getenv) "get"
       "/api/generate-quote-id" "generate_quote_id" = true
  /\ exists op schema,
       LeadSetup.declaration_of (LeadSetup.openapi_spec getenv) "generate_quote_id"
       = Some ("/api/generate-quote-id", "get", op)
       /\ LeadSetup.required_query_parameters op = ["code"]
       /\ LeadSetup.response_schema op = Some schema
       /\ LeadSetup.at_path schema ["type"] = Some (PStr "object")
       /\ LeadSetup.at_path schema ["properties"; "quote_id"; "type"]
          = Some (PStr "string").
Proof.
  split; [apply generate_quote_id_events|].
  split; [apply (proj2 (generate_quote_id_cases getenv dummy net))|].
  split; [reflexivity|].
  do 2 eexists. repeat split.
Qed.

(** C5 as stated fails on the declaration: the document declares no POST
    operation at /generate-quote-id; the operation is a GET, at
    /api/generate-quote-id. *)
Lemma quote_id_endpoint_declaration_counterexample :
  LeadSetup.declares (LeadSetup.openapi_spec no_env) "post"
    "/generate-quote-id" "generate_quote_id" = false
  /\ LeadSetup.declares (LeadSetup.openapi_spec no_env) "post"
       "/api/generate-quote-id" "generate_quote_id" = false
  /\ LeadSetup.declares (LeadSetup.openapi_spec no_env) "get"
       "/generate-quote-id" "generate_quote_id" = false
  /\ option_map fst
       (LeadSetup.declaration_of (LeadSetup.openapi_spec no_env)
          "generate_quote_id")
     = Some ("/api/generate-quote-id", "get").
Proof. repeat split. Qed.

(** ** The vector-store upload *)

Section UploadProperties.

Import Support.

Variable w : world.

(** A poll that finds the store neither completed nor failed. *)
Definition pending (answer : result vector_store) : Prop :=
  exists vs, answer = Return vs
             /\ status vs <> "completed" /\ status vs <> "failed".

Lemma wait_loop_unfold (n : nat) (elapsed : Z) (vs : vector_store) :
  wait_loop w n elapsed vs
  = if elapsed <? max_wait then
      vs' <- call (VectorStoresGet (id vs)) (polled w n) ;;
      if (status vs' =? "completed")%string then
        print "✓ Vector store ready!" ;;; ret vs'
      else if (status vs' =? "failed")%string then
        raise (mkExn ExException "Vector store processing failed")
      else
        emit (Sleep 2) ;;; print_end "." "" ;;;
        wait_loop w (S n) (elapsed + 2) vs'
    else ret vs.
Proof.
  simp wait_loop.
  destruct (Z_lt_dec elapsed max_wait) as [Hlt|Hge]; cbn.
  - apply Z.ltb_lt in Hlt. rewrite Hlt. reflexivity.
  - apply Z.nlt_ge, Z.ltb_ge in Hge. rewrite Hge. reflexivity.
Qed.

Lemma elapsed_step (n : nat) : 2 * Z.of_nat n + 2 = 2 * Z.of_nat (S n).
Proof. lia. Qed.

(** While every poll finds the store pending, the loop runs to its bound of
    30 passes, prints one dot per pass and leaves with the store object of the
    last poll. *)
Lemma wait_loop_pending (d n : nat) (vs : vector_store) :
  (n + d = 30)%nat ->
  (forall j, (n <= j < 30)%nat -> pending (polled w j)) ->
  exists vs',
    outcome (wait_loop w n (2 * Z.of_nat n) vs) = Return vs'
    /\ stdout_of (events (wait_loop w n (2 * Z.of_nat n) vs)) = repeat "." d
    /\ (d = 0%nat -> vs' = vs)
    /\ (d <> 0%nat -> polled w 29 = Return vs').
Proof.
  revert n vs. induction d as [|d IH]; intros n vs Hn Hp.
  - rewrite wait_loop_unfold.
    assert (E : (2 * Z.of_nat n <? max_wait) = false)
      by (apply Z.ltb_ge; unfold max_wait; lia).
    rewrite E. exists vs. repeat split; congruence.
  - rewrite wait_loop_unfold.
    assert (E : (2 * Z.of_nat n <? max_wait) = true)
      by (apply Z.ltb_lt; unfold max_wait; lia).
    rewrite E, elapsed_step.
    destruct (Hp n ltac:(lia)) as (vs1 & Hpoll & Hc & Hf).
    rewrite Hpoll.
    apply String.eqb_neq in Hc. apply String.eqb_neq in Hf.
    destruct (IH (S n) vs1 ltac:(lia) ltac:(intros; apply Hp; lia))
      as (vs' & Hout & Hdots & Hzero & Hlast).
    cbn [bind call]. rewrite Hc, Hf.
    remember (wait_loop w (S n) (2 * Z.of_nat (S n)) vs1) as rest eqn:Erest in *.
    clear Erest. cbn.
    destruct rest as [out r]. cbn in Hout, Hdots |- *. subst r. exists vs'. repeat split; try congruence.
    intros _. destruct d as [|d'].
    + rewrite (Hzero eq_refl). assert (n = 29%nat) by lia. subst n. exact Hpoll.
    + apply Hlast. discriminate.
Qed.

(** When the first poll that is not pending comes within the 30 passes and
    finds the store failed, the loop raises. *)
Lemma wait_loop_failed (k n : nat) (vs failed : vector_store) :
  (n + k < 30)%nat ->
  (forall j, (n <= j < n + k)%nat -> pending (polled w j)) ->
  polled w (n + k) = Return failed -> status failed = "failed" ->
  outcome (wait_loop w n (2 * Z.of_nat n) vs)
  = Raise (mkExn ExException "Vector store processing failed").
Proof.
  revert n vs. induction k as [|k IH]; intros n vs Hn Hp Hk Hf.
  - rewrite wait_loop_unfold.
    assert (E : (2 * Z.of_nat n <? max_wait) = true)
      by (apply Z.ltb_lt; unfold max_wait; lia).
    rewrite E. rewrite Nat.add_0_r in Hk. rewrite Hk. cbn. rewrite Hf.
    reflexivity.
  - rewrite wait_loop_unfold.
    assert (E : (2 * Z.of_nat n <? max_wait) = true)
      by (apply Z.ltb_lt; unfold max_wait; lia).
    rewrite E, elapsed_step.
    destruct (Hp n ltac:(lia)) as (vs1 & Hpoll & Hc & Hf1).
    rewrite Hpoll.
    apply String.eqb_neq in Hc. apply String.eqb_neq in Hf1.
    assert (IHk : outcome (wait_loop w (S n) (2 * Z.of_nat (S n)) vs1)
                  = Raise (mkExn ExException "Vector store processing failed")).
    { apply IH.
      - lia.
      - intros j Hj. apply Hp. lia.
      - replace (S n + k)%nat with (n + S k)%nat by lia. exact Hk.
      - exact Hf. }
    cbn [bind call]. rewrite Hc, Hf1.
    remember (wait_loop w (S n) (2 * Z.of_nat (S n)) vs1) as rest eqn:Erest in *.
    clear Erest. cbn.
    destruct rest as [out r]. cbn in IHk |- *. now subst r.
Qed.

End UploadProperties.

(** What the upload prints before it starts to poll. *)
Definition upload_banner (f : Support.file) (vs : Support.vector_store)
  : list string :=
  [(Chat.nl ++ "📤 Uploading FAQ file to vector store...") ++ Chat.nl;
   ("✓ File uploaded with ID: " ++ Support.file_id f) ++ Chat.nl;
   ("✓ Vector store created with ID: " ++ Support.id vs) ++ Chat.nl;
   "✓ Processing file in vector store..." ++ Chat.nl].

(** C9. Once the file is uploaded and the store created: if the first poll
    that does not find the store pending comes within the 30 polls of the
    60-second wait and finds it failed, the upload raises; if all 30 polls
    find it pending, the upload returns the id of the store as last polled,
    having printed its banner and one dot per poll and nothing else. *)
Theorem upload_raises_on_failed_and_returns_id_on_wait_bound
  (w : Support.world) (faq_file_path : string)
  (f : Support.file) (vs0 : Support.vector_store) :
  Support.opened w = Return tt ->
  Support.uploaded w = Return f ->
  Support.created w = Return vs0 ->
  (forall (k : nat) (failed : Support.vector_store),
     (k < 30)%nat ->
     (forall j, (j < k)%nat -> pending (Support.polled w j)) ->
     Support.polled w k = Return failed ->
     Support.status failed = "failed" ->
     outcome (Support.upload_faq_to_vector_store w faq_file_path)
     = Raise (mkExn ExException "Vector store processing failed"))
  /\ ((forall j, (j < 30)%nat -> pending (Support.polled w j)) ->
      exists vs,
        Support.polled w 29 = Return vs
        /\ outcome (Support.upload_faq_to_vector_store w faq_file_path)
           = Return (Support.id vs)
        /\ stdout_of (events (Support.upload_faq_to_vector_store w faq_file_path))
           = (upload_banner f vs0 ++ repeat "." 30)%list).
Proof.
  intros Ho Hu Hc. split.
  - intros k failed Hk Hp Hpoll Hf.
    pose proof (wait_loop_failed w k 0 vs0 failed ltac:(lia)
                  ltac:(intros; apply Hp; lia) Hpoll Hf) as Hloop.
    change (2 * Z.of_nat 0) with 0 in Hloop.
    unfold Support.upload_faq_to_vector_store. rewrite Ho, Hu, Hc.
    cbn [bind call print emit].
    remember (Support.wait_loop w 0 0 vs0) as rest eqn:E. clear E.
    destruct rest as [out r]. cbn in Hloop |- *. now subst r.
  - intros Hp.
    destruct (wait_loop_pending w 30 0 vs0 eq_refl
                ltac:(intros; apply Hp; lia))
      as (vs & Hout & Hdots & _ & Hlast).
    change (2 * Z.of_nat 0) with 0 in Hout, Hdots.
    exists vs. split; [apply Hlast; discriminate|].
    unfold Support.upload_faq_to_vector_store. rewrite Ho, Hu, Hc.
    cbn [bind call print emit].
    remember (Support.wait_loop w 0 0 vs0) as rest eqn:E. clear E.
    destruct rest as [out r]. cbn in Hout, Hdots |- *. subst r.
    split; [reflexivity|].
    rewrite app_nil_r. cbn. now rewrite Hdots.
Qed.

(** A store that stays in progress, and one that fails at the fourth poll. *)
Definition slow_store : Support.world :=
  Support.mkWorld (Return tt) (Return (Support.mkFile "file_1"))
    (Return (Support.mkStore "vs_1" "in_progress"))
    (fun _ => Return (Support.mkStore "vs_1" "in_progress")).

Definition failing_store : Support.world :=
  Support.mkWorld (Return tt) (Return (Support.mkFile "file_1"))
    (Return (Support.mkStore "vs_1" "in_progress"))
    (fun n => if (n <? 3)%nat
              then Return (Support.mkStore "vs_1" "in_progress")
              else Return (Support.mkStore "vs_1" "failed")).

Lemma upload_raises_on_failed_and_returns_id_on_wait_bound_witness :
  outcome (Support.upload_faq_to_vector_store failing_store "faq.txt")
  = Raise (mkExn ExException "Vector store processing failed")
  /\ exists vs,
       Support.polled slow_store 29 = Return vs
       /\ outcome (Support.upload_faq_to_vector_store slow_store "faq.txt")
          = Return (Support.id vs)
       /\ stdout_of (events (Support.upload_faq_to_vector_store slow_store "faq.txt"))
          = (upload_banner (Support.mkFile "file_1")
               (Support.mkStore "vs_1" "in_progress") ++ repeat "." 30)%list.
Proof.
  split.
  - apply (proj1 (upload_raises_on_failed_and_returns_id_on_wait_bound
                    failing_store "faq.txt" (Support.mkFile "file_1")
                    (Support.mkStore "vs_1" "in_progress")
                    eq_refl eq_refl eq_refl)
             3%nat (Support.mkStore "vs_1" "failed")).
    + lia.
    + intros j Hj. exists (Support.mkStore "vs_1" "in_progress").
      repeat split; try discriminate.
      unfold failing_store. cbn [Support.polled].
      apply Nat.ltb_lt in Hj. rewrite Hj. reflexivity.
    + reflexivity.
    + reflexivity.
  - apply (proj2 (upload_raises_on_failed_and_returns_id_on_wait_bound
                    slow_store "faq.txt" (Support.mkFile "file_1")
                    (Support.mkStore "vs_1" "in_progress")
                    eq_refl eq_refl eq_refl)).
    intros j _. exists (Support.mkStore "vs_1" "in_progress").
    repeat split; discriminate.
Defined.

(** ** The cost calculator *)

Section CostProperties.

Import Cost.

Lemma lookup_None (model : string) (table : list (string * pricing)) :
  lookup model table = None <-> ~ In model (map fst table).
Proof.
  induction table as [|[k v] rest IH]; cbn.
  - tauto.
  - destruct (k =? model)%string eqn:E.
    + apply String.eqb_eq in E. split; [discriminate | tauto].
    + apply String.eqb_neq in E. rewrite IH. tauto.
Qed.

Lemma lookup_Some (model : string) (table : list (string * pricing)) :
  In model (map fst table) -> exists p, lookup model table = Some p.
Proof.
  intros Hin. destruct (lookup model table) as [p|] eqn:E.
  - now exists p.
  - apply lookup_None in E. contradiction.
Qed.

(** Dividing a token count by a million overflows no float, for any count a
    machine can hold. *)
Lemma int_truediv_returns (a : Z) :
  Z.abs a < 2 ^ 1000 -> exists q, int_truediv a 1000000 = Return q.
Proof.
  intros Ha. unfold int_truediv.
  change (1000000 =? 0) with false. cbv iota.
  destruct (a =? 0) eqn:Ea; [eexists; reflexivity|].
  apply Z.eqb_neq in Ea.
  assert (Hpos : 0 < Z.abs a) by lia.
  assert (Hlog : Z.log2 (Z.abs a) < 1000) by (apply Z.log2_lt_pow2; lia).
  pose proof (Z.log2_nonneg (Z.abs a)) as Hlog0.
  unfold nearest_binary64. change (Z.abs 1000000) with 1000000.
  change (Z.log2 1000000) with 19.
  set (e0 := Z.log2 (Z.abs a) - 19 - 52).
  match goal with
  | |- context [if ?c then e0 - 1 else e0] =>
      set (e1 := if c then e0 - 1 else e0)
  end.
  assert (He1 : e1 <= e0) by (subst e1; destruct (_ <? _); lia).
  set (e2 := Z.max e1 (-1074)).
  match goal with
  | |- context [if ?c then (2 ^ 52, e2 + 1) else (?m, e2)] =>
      destruct c
  end.
  - assert (E : (971 <? e2 + 1) = false) by (apply Z.ltb_ge; subst e0 e2; lia).
    rewrite E. eexists; reflexivity.
  - assert (E : (971 <? e2) = false) by (apply Z.ltb_ge; subst e0 e2; lia).
    rewrite E. eexists; reflexivity.
Qed.

End CostProperties.

(** The call raised [ValueError]. *)
Definition raises_ValueError {A} (r : result A) : Prop :=
  exists msg, r = Raise (mkExn ExValueError msg).

(** C10, as the code has it. [calculate_cost] raises [ValueError] exactly
    when the model is not a key of the pricing table, and then leaves
    [session_costs] as it was. For a model of the table, whenever the two
    divisions of the token counts by a million give floats, it appends
    exactly one record, the one it returns: its [input_cost] is tokens / 10^6
    times the input price rounded to 6 places, its [output_cost] likewise
    with the output price, and its [total_cost] is the sum of the two
    unrounded products, rounded to 6 places. When a division is too large
    for a float, the call raises the [OverflowError] of the division and
    leaves [session_costs] as it was. *)
Theorem calculate_cost_appends_rounded_record
  (self : Cost.OpenAICostCalculator) (model : string)
  (input_tokens output_tokens : Z) (now : string) :
  (raises_ValueError
     (outcome (snd (Cost.calculate_cost self model input_tokens output_tokens now)))
   <-> ~ In model (map fst Cost.OPENAI_PRICING))
  /\ (~ In model (map fst Cost.OPENAI_PRICING) ->
      fst (Cost.calculate_cost self model input_tokens output_tokens now) = self)
  /\ (In model (map fst Cost.OPENAI_PRICING) ->
      exists p, Cost.lookup model Cost.OPENAI_PRICING = Some p)
  /\ (forall p qi qo,
      Cost.lookup model Cost.OPENAI_PRICING = Some p ->
      Cost.int_truediv input_tokens 1000000 = Return qi ->
      Cost.int_truediv output_tokens 1000000 = Return qo ->
      outcome (snd (Cost.calculate_cost self model input_tokens output_tokens now))
      = Return (Cost.mkCostRecord model input_tokens output_tokens
                  (Cost.round6 (qi * Cost.input_price_per_1m p)%float)
                  (Cost.round6 (qo * Cost.output_price_per_1m p)%float)
                  (Cost.round6 (qi * Cost.input_price_per_1m p
                                + qo * Cost.output_price_per_1m p)%float)
                  now)
      /\ Cost.session_costs
           (fst (Cost.calculate_cost self model input_tokens output_tokens now))
         = (Cost.session_costs self
            ++ [Cost.mkCostRecord model input_tokens output_tokens
                  (Cost.round6 (qi * Cost.input_price_per_1m p)%float)
                  (Cost.round6 (qo * Cost.output_price_per_1m p)%float)
                  (Cost.round6 (qi * Cost.input_price_per_1m p
                                + qo * Cost.output_price_per_1m p)%float)
                  now])%list)
  /\ (forall e,
      In model (map fst Cost.OPENAI_PRICING) ->
      Cost.int_truediv input_tokens 1000000 = Raise e
      \/ ((exists qi, Cost.int_truediv input_tokens 1000000 = Return qi)
          /\ Cost.int_truediv output_tokens 1000000 = Raise e) ->
      outcome (snd (Cost.calculate_cost self model input_tokens output_tokens now))
      = Raise e
      /\ exn_class_of e = ExOverflowError
      /\ fst (Cost.calculate_cost self model input_tokens output_tokens now)
         = self).
Proof.
  assert (Hover : forall a e, Cost.int_truediv a 1000000 = Raise e ->
                             exn_class_of e = ExOverflowError).
  { intros a e. unfold Cost.int_truediv.
    change (1000000 =? 0) with false. cbv iota.
    destruct (a =? 0); [discriminate|].
    destruct (Cost.nearest_binary64 _ _) as [[m e']|]; [discriminate|].
    intros He. injection He as <-. reflexivity. }
  unfold Cost.calculate_cost.
  destruct (Cost.lookup model Cost.OPENAI_PRICING) as [p|] eqn:Hl.
  - assert (Hin : In model (map fst Cost.OPENAI_PRICING)).
    { destruct (in_dec string_dec model (map fst Cost.OPENAI_PRICING)) as [H|H];
        [assumption|].
      apply lookup_None in H. congruence. }
    split; [|split; [|split; [|split]]].
    + split; [|tauto].
      intros [msg Hr]. exfalso. revert Hr.
      destruct (Cost.int_truediv input_tokens 1000000) as [qi|e] eqn:Hi.
      * destruct (Cost.int_truediv output_tokens 1000000) as [qo|e] eqn:Ho.
        -- discriminate.
        -- cbn. intros H. injection H as H.
           apply Hover in Ho. rewrite H in Ho. discriminate.
      * cbn. intros H. injection H as H.
        apply Hover in Hi. rewrite H in Hi. discriminate.
    + tauto.
    + intros _. now exists p.
    + intros p' qi qo Hp Hqi Hqo. injection Hp as <-.
      rewrite Hqi, Hqo. split; reflexivity.
    + intros e _ [Hi | [[qi Hi] Ho]].
      * rewrite Hi. repeat split. eapply Hover; eassumption.
      * rewrite Hi, Ho. repeat split. eapply Hover; eassumption.
  - pose proof (proj1 (lookup_None model Cost.OPENAI_PRICING) Hl) as Hnot.
    split; [|split; [|split; [|split]]].
    + split; [tauto|]. intros _. eexists. reflexivity.
    + reflexivity.
    + tauto.
    + discriminate.
    + tauto.
Qed.

(** [a / 1_000_000] where it is a float. *)
Definition millions (a : Z) : float :=
  match Cost.int_truediv a 1000000 with
  | Return q => q
  | Raise _ => 0%float
  end.

Lemma calculate_cost_appends_rounded_record_witness :
  outcome (snd (Cost.calculate_cost Cost.init "gpt-4o" 1200 300
                  "2026-01-01T00:00:00"))
  = Return (Cost.mkCostRecord "gpt-4o" 1200 300
              (Cost.round6 (millions 1200 * 2.5)%float)
              (Cost.round6 (millions 300 * 10)%float)
              (Cost.round6 (millions 1200 * 2.5 + millions 300 * 10)%float)
              "2026-01-01T00:00:00")
  /\ Cost.session_costs
       (fst (Cost.calculate_cost Cost.init "gpt-4o" 1200 300
               "2026-01-01T00:00:00"))
     = (Cost.session_costs Cost.init
        ++ [Cost.mkCostRecord "gpt-4o" 1200 300
              (Cost.round6 (millions 1200 * 2.5)%float)
              (Cost.round6 (millions 300 * 10)%float)
              (Cost.round6 (millions 1200 * 2.5 + millions 300 * 10)%float)
              "2026-01-01T00:00:00"])%list.
Proof.
  apply (proj1 (proj2 (proj2 (proj2
           (calculate_cost_appends_rounded_record Cost.init "gpt-4o" 1200 300
              "2026-01-01T00:00:00"))))
           (Cost.mkPricing 2.5%float 10%float) (millions 1200) (millions 300)).
  - reflexivity.
  - vm_compute. reflexivity.
  - vm_compute. reflexivity.
Defined.

(** C10 as stated fails twice. On the two cost fields: for one input token
    of gpt-4o-mini the product tokens / 10^6 times the input price is
    positive (about 1.5e-7), and the record holds its rounding to 6 places,
    which is zero. On a model of the table always giving a record: with
    10^400 input tokens the division by a million overflows, the call raises
    [OverflowError], and no record is appended. *)
Lemma calculate_cost_input_cost_counterexample :
  match Cost.int_truediv 1 1000000,
        Cost.lookup "gpt-4o-mini" Cost.OPENAI_PRICING,
        outcome (snd (Cost.calculate_cost Cost.init "gpt-4o-mini" 1 0
                        "2026-01-01T00:00:00")) with
  | Return q, Some p, Return rec =>
      Cost.input_cost rec = 0%float
      /\ PrimFloat.ltb 0 (q * Cost.input_price_per_1m p) = true
      /\ PrimFloat.eqb (Cost.input_cost rec) (q * Cost.input_price_per_1m p)
         = false
  | _, _, _ => False
  end
  /\ existsb (String.eqb "gpt-4o") (map fst Cost.OPENAI_PRICING) = true
  /\ outcome (snd (Cost.calculate_cost Cost.init "gpt-4o" (10 ^ 400) 0
                     "2026-01-01T00:00:00"))
     = Raise (mkExn ExOverflowError
                "integer division result too large for a float")
  /\ Cost.session_costs
       (fst (Cost.calculate_cost Cost.init "gpt-4o" (10 ^ 400) 0
               "2026-01-01T00:00:00")) = [].
Proof. vm_compute. repeat split. Qed.

(* ===================================================================== *)
(** * Further properties of the sources *)
(* ===================================================================== *)

(** ** The backend tools: requests and failure messages *)

(** The HTTP requests of a run: URL, JSON payload and timeout of each. *)
Fixpoint http_posts (evs : list event) : list (string * option pyval * Z) :=
  match evs with
  | [] => []
  | HttpPost target json timeout :: rest =>
      (target, json, timeout) :: http_posts rest
  | _ :: rest => http_posts rest
  end.

Section ToolRequests.

Import LeadProcessing Requests.

Variable getenv : string -> option string.

(** Takes a tool apart along the outcome of its one request. *)
Ltac split_reply net :=
  destruct net as [e | r]; cbn;
  [ try (destruct (is_Timeout e); [| destruct (is_RequestException e)])
  | let Hs := fresh "Hs" in
    destruct (status_dec r) as [Hs|Hs];
    [ destruct (raise_for_status_error _ Hs) as [? ->]
    | rewrite (raise_for_status_ok _ Hs); cbn; unfold json;
      let v := fresh "v" in
      destruct (json_result r) as [v|e];
      [ destruct v
      | cbn; try (destruct (is_Timeout e); [| destruct (is_RequestException e)]) ] ] ].

(** The one request of each tool. *)
Lemma tool_requests
  (dummy quote_id full_name email phone_number : string) (age : Z)
  (location to_email : string) (net : post_outcome) :
  http_posts (events (generate_quote_id getenv dummy net))
  = [(fmt_opt (getenv "AZURE_FUNCTION_BASE_URL") ++ "/generate-quote-id?code="
      ++ fmt_opt (getenv "AZURE_FUNCTION_CODE"), None, 30)]
  /\ http_posts (events (update_cosmos_db getenv quote_id full_name email
                           phone_number age location net))
     = [(fmt_opt (getenv "AZURE_FUNCTION_BASE_URL") ++ "/leads?code="
         ++ fmt_opt (getenv "AZURE_FUNCTION_CODE"),
         Some (PDict [("quote_id", PStr quote_id); ("full_name", PStr full_name);
                      ("email", PStr email); ("phone_number", PStr phone_number);
                      ("age", PInt age); ("location", PStr location)]),
         30)]
  /\ http_posts (events (send_email_notification getenv to_email quote_id
                           full_name net))
     = [(fmt_opt (getenv "AZURE_FUNCTION_BASE_URL") ++ "/send-email?code="
         ++ fmt_opt (getenv "AZURE_FUNCTION_CODE"),
         Some (PDict [("to_email", PStr to_email); ("quote_id", PStr quote_id);
                      ("full_name", PStr full_name)]),
         30)].
Proof.
  repeat split.
  - unfold generate_quote_id. split_reply net; reflexivity.
  - unfold update_cosmos_db. split_reply net; reflexivity.
  - unfold send_email_notification. split_reply net; reflexivity.
Qed.

(** X1. Whatever the backend does, each tool sends exactly one request, with
    a timeout of 30 seconds: no tool retries. [generate_quote_id] posts no
    body to /generate-quote-id; [update_cosmos_db] posts the six lead fields
    to /leads; [send_email_notification] posts the three mail fields to
    /send-email; each URL carries the function code as [code]. *)
Theorem tools_send_one_request_each
  (dummy quote_id full_name email phone_number : string) (age : Z)
  (location to_email : string) (net : post_outcome) :
  http_posts (events (generate_quote_id getenv dummy net))
  = [(fmt_opt (getenv "AZURE_FUNCTION_BASE_URL") ++ "/generate-quote-id?code="
      ++ fmt_opt (getenv "AZURE_FUNCTION_CODE"), None, 30)]
  /\ http_posts (events (update_cosmos_db getenv quote_id full_name email
                           phone_number age location net))
     = [(fmt_opt (getenv "AZURE_FUNCTION_BASE_URL") ++ "/leads?code="
         ++ fmt_opt (getenv "AZURE_FUNCTION_CODE"),
         Some (PDict [("quote_id", PStr quote_id); ("full_name", PStr full_name);
                      ("email", PStr email); ("phone_number", PStr phone_number);
                      ("age", PInt age); ("location", PStr location)]),
         30)]
  /\ http_posts (events (send_email_notification getenv to_email quote_id
                           full_name net))
     = [(fmt_opt (getenv "AZURE_FUNCTION_BASE_URL") ++ "/send-email?code="
         ++ fmt_opt (getenv "AZURE_FUNCTION_CODE"),
         Some (PDict [("to_email", PStr to_email); ("quote_id", PStr quote_id);
                      ("full_name", PStr full_name)]),
         30)].
Proof. apply tool_requests. Qed.

(** X2. The failure sentence of [update_cosmos_db] tells three kinds of
    failure apart and never carries the text of the exception: a timeout, any
    other failure of the request (a connection error, a 4xx or 5xx status),
    and anything else (here a JSON body that is not an object). *)
Theorem update_cosmos_db_failure_sentences
  (quote_id full_name email phone_number : string) (age : Z) (location : string) :
  (forall e, is_Timeout e = true ->
     outcome (update_cosmos_db getenv quote_id full_name email phone_number age
                location (PostRaises e))
     = Return (PStr ("The request timed out while saving lead information for "
                     ++ full_name ++ ". Please try again later.")))
  /\ (forall e, is_Timeout e = false -> is_RequestException e = true ->
     outcome (update_cosmos_db getenv quote_id full_name email phone_number age
                location (PostRaises e))
     = Return (PStr ("An error occurred while saving the lead information for "
                     ++ full_name ++ ". Please try again later.")))
  /\ (forall r, 400 <= status_code r < 600 ->
     outcome (update_cosmos_db getenv quote_id full_name email phone_number age
                location (PostReturns r))
     = Return (PStr ("An error occurred while saving the lead information for "
                     ++ full_name ++ ". Please try again later.")))
  /\ (forall r v, ~ (400 <= status_code r < 600) ->
     json_result r = Return v -> (forall d, v <> PDict d) ->
     outcome (update_cosmos_db getenv quote_id full_name email phone_number age
                location (PostReturns r))
     = Return (PStr ("An unexpected error occurred while saving the lead information for "
                     ++ full_name ++ ". Please try again later."))).
Proof.
  unfold update_cosmos_db. repeat split.
  - intros e Ht. cbn. rewrite Ht. reflexivity.
  - intros e Ht Hr. cbn. rewrite Ht, Hr. reflexivity.
  - intros r Hs. cbn. destruct (raise_for_status_error _ Hs) as [msg ->].
    reflexivity.
  - intros r v Hs Hj Hd. cbn. rewrite (raise_for_status_ok _ Hs). cbn.
    unfold json. rewrite Hj.
    destruct v; try reflexivity. exfalso. eapply Hd. reflexivity.
Qed.

(** X3. On every failure before a JSON object is at hand,
    [send_email_notification] returns the same sentence naming the
    recipient; the text of the exception goes to standard output only. *)
Theorem send_email_notification_failure_sentence
  (to_email quote_id full_name : string) (net : post_outcome) :
  request_fails net ->
  outcome (send_email_notification getenv to_email quote_id full_name net)
  = Return (PStr ("An error occurred while sending the email to " ++ to_email
                  ++ ". Please try again later."))
  /\ exists detail,
       stdout_of (events (send_email_notification getenv to_email quote_id
                            full_name net))
       = [("Error sending email: " ++ detail) ++ String "010" ""].
Proof.
  intros Hf. unfold send_email_notification.
  destruct Hf as [e | r Hs | r e He | r v Hv Hd]; cbn.
  - split; [reflexivity | eexists; reflexivity].
  - destruct (raise_for_status_error _ Hs) as [msg ->].
    split; [reflexivity | eexists; reflexivity].
  - destruct (status_dec r) as [Hs|Hs].
    + destruct (raise_for_status_error _ Hs) as [msg ->].
      split; [reflexivity | eexists; reflexivity].
    + rewrite (raise_for_status_ok _ Hs). cbn. unfold json. rewrite He.
      split; [reflexivity | eexists; reflexivity].
  - destruct (status_dec r) as [Hs|Hs].
    + destruct (raise_for_status_error _ Hs) as [msg ->].
      split; [reflexivity | eexists; reflexivity].
    + rewrite (raise_for_status_ok _ Hs). cbn. unfold json. rewrite Hv.
      destruct v; try (split; [reflexivity | eexists; reflexivity]).
      exfalso. eapply Hd. reflexivity.
Qed.

(** X4. When the backend answers with an object that holds a string under
    [message], [update_cosmos_db] and [send_email_notification] return that
    string as it is and print nothing. *)
Theorem backend_message_returned_verbatim
  (quote_id full_name email phone_number : string) (age : Z)
  (location to_email message : string)
  (net : post_outcome) (d : list (string * pyval)) :
  answers_object net d -> assoc "message" d = Some (PStr message) ->
  outcome (update_cosmos_db getenv quote_id full_name email phone_number age
             location net) = Return (PStr message)
  /\ stdout_of (events (update_cosmos_db getenv quote_id full_name email
                          phone_number age location net)) = []
  /\ outcome (send_email_notification getenv to_email quote_id full_name net)
     = Return (PStr message)
  /\ stdout_of (events (send_email_notification getenv to_email quote_id
                          full_name net)) = [].
Proof.
  intros Hd Hm.
  rewrite (update_cosmos_db_object getenv _ _ _ _ _ _ _ _ Hd).
  rewrite (send_email_notification_object getenv _ _ _ _ _ Hd).
  rewrite Hm.
  destruct Hd as (r & -> & Hs & Hj).
  unfold update_cosmos_db, send_email_notification. cbn.
  rewrite (raise_for_status_ok _ Hs). cbn. unfold json. rewrite Hj.
  repeat split.
Qed.

End ToolRequests.

Lemma send_email_notification_failure_sentence_witness :
  outcome (LeadProcessing.send_email_notification no_env "ada@example.com"
             "q-1" "Ada Lovelace"
             (Requests.PostRaises (mkExn ExConnectionError "Connection refused")))
  = Return (PStr "An error occurred while sending the email to ada@example.com. Please try again later.")
  /\ exists detail,
       stdout_of (events (LeadProcessing.send_email_notification no_env
                            "ada@example.com" "q-1" "Ada Lovelace"
                            (Requests.PostRaises
                               (mkExn ExConnectionError "Connection refused"))))
       = [("Error sending email: " ++ detail) ++ String "010" ""].
Proof.
  apply (send_email_notification_failure_sentence no_env "ada@example.com"
           "q-1" "Ada Lovelace"
           (Requests.PostRaises (mkExn ExConnectionError "Connection refused"))).
  constructor.
Defined.

Lemma backend_message_returned_verbatim_witness :
  outcome (LeadProcessing.update_cosmos_db no_env "q-1" "Ada Lovelace"
             "ada@example.com" "555-0100" 36 "London, UK"
             (ok_reply (PDict [("status", PStr "ok"); ("message", PStr "Lead saved")])))
  = Return (PStr "Lead saved")
  /\ stdout_of (events (LeadProcessing.update_cosmos_db no_env "q-1"
                          "Ada Lovelace" "ada@example.com" "555-0100" 36
                          "London, UK"
                          (ok_reply (PDict [("status", PStr "ok");
                                            ("message", PStr "Lead saved")]))))
     = []
  /\ outcome (LeadProcessing.send_email_notification no_env "ada@example.com"
                "q-1" "Ada Lovelace"
                (ok_reply (PDict [("status", PStr "ok"); ("message", PStr "Lead saved")])))
     = Return (PStr "Lead saved")
  /\ stdout_of (events (LeadProcessing.send_email_notification no_env
                          "ada@example.com" "q-1" "Ada Lovelace"
                          (ok_reply (PDict [("status", PStr "ok");
                                            ("message", PStr "Lead saved")]))))
     = [].
Proof.
  apply (backend_message_returned_verbatim no_env "q-1" "Ada Lovelace"
           "ada@example.com" "555-0100" 36 "London, UK" "ada@example.com"
           "Lead saved" _
           [("status", PStr "ok"); ("message", PStr "Lead saved")]).
  - apply success_answers_object; [cbn; lia | reflexivity].
  - reflexivity.
Defined.

(** ** The drivers: configuration, message order, end of input *)

(** The contents of the messages handed to [messages.create], in order, and
    the number of runs started. *)
Fixpoint messages_sent (evs : list event) : list string :=
  match evs with
  | [] => []
  | MessagesCreate _ _ content :: rest => content :: messages_sent rest
  | _ :: rest => messages_sent rest
  end.

Fixpoint runs_started (evs : list event) : nat :=
  match evs with
  | [] => O
  | RunsCreateAndProcess _ _ :: rest => S (runs_started rest)
  | _ :: rest => runs_started rest
  end.

(** The lines read before the first quit that pass the test [keep]. *)
Fixpoint kept_lines (keep : string -> bool) (turns : list LeadProcessing.turn)
  : list string :=
  match turns with
  | [] => []
  | t :: rest =>
      if (lower (LeadProcessing.line t) =? "quit")%string then []
      else if keep (LeadProcessing.line t)
           then LeadProcessing.line t :: kept_lines keep rest
           else kept_lines keep rest
  end.

Definition not_empty (s : string) : bool := negb (String.length s =? 0)%nat.
Definition not_blank (s : string) : bool :=
  negb (String.length (strip s) =? 0)%nat.

(** The service answers every call of the pass. *)
Definition answered (t : LeadProcessing.turn) : Prop :=
  LeadProcessing.message_created t = Return tt
  /\ (exists r, LeadProcessing.run_processed t = Return r)
  /\ (exists m, LeadProcessing.last_message t = Return m).

Section DriverOrder.

Import LeadProcessing.

Lemma messages_sent_app (a b : list event) :
  messages_sent (a ++ b) = (messages_sent a ++ messages_sent b)%list.
Proof.
  induction a as [|ev a IH]; [reflexivity|].
  destruct ev; cbn; rewrite IH; reflexivity.
Qed.

Lemma runs_started_app (a b : list event) :
  runs_started (a ++ b) = (runs_started a + runs_started b)%nat.
Proof.
  induction a as [|ev a IH]; [reflexivity|].
  destruct ev; cbn; rewrite IH; reflexivity.
Qed.

(** One pass of either loop, summed up: how it ends, what it appends and
    whether it starts a run. *)
Inductive pass_summary (keep : string -> bool) (t : turn)
  : list event -> result control -> Prop :=
| pass_quit evs :
    lower (line t) = "quit" -> messages_sent evs = [] -> runs_started evs = O ->
    pass_summary keep t evs (Return Break)
| pass_skipped evs :
    lower (line t) <> "quit" -> keep (line t) = false ->
    messages_sent evs = [] -> runs_started evs = O ->
    pass_summary keep t evs (Return Continue)
| pass_sent evs :
    lower (line t) <> "quit" -> keep (line t) = true ->
    messages_sent evs = [line t] -> runs_started evs = 1%nat ->
    pass_summary keep t evs (Return Continue)
| pass_raised evs e :
    lower (line t) <> "quit" -> keep (line t) = true ->
    messages_sent evs = [line t] -> (runs_started evs <= 1)%nat ->
    ~ answered t ->
    pass_summary keep t evs (Raise e).

Ltac not_answered :=
  let H := fresh in
  intros (H & [? H'] & [? H'']); cbn in *; discriminate.

Lemma lead_pass (th : thread) (ag : agent) (t : turn) :
  pass_summary not_empty t (events (LeadProcessing.loop_body th ag t))
    (outcome (LeadProcessing.loop_body th ag t)).
Proof.
  unfold LeadProcessing.loop_body, not_empty.
  destruct t as [ln created processed last]. cbn.
  destruct (lower ln =? "quit")%string eqn:Eq.
  - apply String.eqb_eq in Eq. now apply pass_quit.
  - apply String.eqb_neq in Eq.
    destruct (String.length ln =? 0)%nat eqn:El; cbn.
    + apply pass_skipped; cbn; try rewrite El; trivial.
    + destruct created as [[]|e]; cbn.
      * destruct processed as [r|e]; cbn.
        -- destruct last as [[v|]|e]; cbn.
           ++ apply pass_sent; cbn; try rewrite El; trivial.
           ++ apply pass_sent; cbn; try rewrite El; trivial.
           ++ apply pass_raised; cbn; try rewrite El; trivial.
              intros (_ & _ & [m Hm]); cbn in Hm; discriminate.
        -- apply pass_raised; cbn; try rewrite El; trivial; try lia.
           intros (_ & [r Hr] & _); cbn in Hr; discriminate.
      * apply pass_raised; cbn; try rewrite El; trivial; try lia.
        intros (Hc & _); cbn in Hc; discriminate.
Qed.

Lemma chat_pass (th : thread) (agent_id : string) (t : turn) :
  pass_summary not_blank t (events (Chat.loop_body th agent_id t))
    (outcome (Chat.loop_body th agent_id t)).
Proof.
  unfold Chat.loop_body, not_blank.
  destruct t as [ln created processed last]. cbn.
  destruct (lower ln =? "quit")%string eqn:Eq.
  - apply String.eqb_eq in Eq. now apply pass_quit.
  - apply String.eqb_neq in Eq.
    destruct (String.length (strip ln) =? 0)%nat eqn:El; cbn.
    + apply pass_skipped; cbn [line]; try rewrite El; trivial.
    + destruct created as [[]|e]; cbn.
      * destruct processed as [r|e]; cbn.
        -- destruct last as [[v|]|e]; cbn.
           ++ destruct (status r =? "failed")%string; cbn;
                apply pass_sent; cbn [line]; try rewrite El; trivial.
           ++ destruct (status r =? "failed")%string; cbn;
                apply pass_sent; cbn [line]; try rewrite El; trivial.
           ++ apply pass_raised; cbn [line]; try rewrite El; trivial.
              intros (_ & _ & [m Hm]); cbn in Hm; discriminate.
        -- apply pass_raised; cbn [line]; try rewrite El; trivial; try (cbn; lia).
           intros (_ & [r Hr] & _); cbn in Hr; discriminate.
      * apply pass_raised; cbn [line]; try rewrite El; trivial; try (cbn; lia).
        intros (Hc & _); cbn in Hc; discriminate.
Qed.

End DriverOrder.

Lemma outcome_bind {A B} (m : M A) (k : A -> M B) :
  outcome (bind m k)
  = match outcome m with
    | Return a => outcome (k a)
    | Raise e => Raise e
    end.
Proof.
  destruct m as [out [a|e]]; cbn; [destruct (k a)|]; reflexivity.
Qed.

(** A [while True] loop over the lines of standard input, whatever its
    body, as long as each pass is as [pass_summary] says. *)
Section InputLoop.

Import LeadProcessing.

Variable keep : string -> bool.
Variable prompt : string.
Variable body : turn -> M control.
Variable loop : list turn -> M unit.

Hypothesis loop_nil :
  loop [] = call (Stdin prompt) (Raise (mkExn ExEOFError "EOF when reading a line")).
Hypothesis loop_cons : forall t rest,
  loop (t :: rest)
  = bind (body t) (fun c => match c with
                            | Break => ret tt
                            | Continue => loop rest
                            end).
Hypothesis body_pass : forall t,
  pass_summary keep t (events (body t)) (outcome (body t)).

Lemma loop_messages_prefix (turns : list turn) :
  exists later,
    kept_lines keep turns = (messages_sent (events (loop turns)) ++ later)%list.
Proof.
  induction turns as [|t rest [later IH]].
  - rewrite loop_nil. exists []. reflexivity.
  - rewrite loop_cons, events_bind, messages_sent_app. cbn [kept_lines].
    destruct (body_pass t) as [evs Hq Hm Hr | evs Hq Hk Hm Hr
                              | evs Hq Hk Hm Hr | evs e Hq Hk Hm Hr Hn].
    + apply String.eqb_eq in Hq. rewrite Hq, Hm. exists []. reflexivity.
    + apply String.eqb_neq in Hq. rewrite Hq, Hk, Hm. exists later. exact IH.
    + apply String.eqb_neq in Hq. rewrite Hq, Hk, Hm. exists later.
      cbn. now rewrite IH.
    + apply String.eqb_neq in Hq. rewrite Hq, Hk, Hm.
      exists (kept_lines keep rest). reflexivity.
Qed.

Lemma loop_runs_bound (turns : list turn) :
  (runs_started (events (loop turns))
   <= List.length (messages_sent (events (loop turns))))%nat.
Proof.
  induction turns as [|t rest IH].
  - rewrite loop_nil. cbn. lia.
  - rewrite loop_cons, events_bind, messages_sent_app, runs_started_app,
      length_app.
    destruct (body_pass t) as [evs Hq Hm Hr | evs Hq Hk Hm Hr
                              | evs Hq Hk Hm Hr | evs e Hq Hk Hm Hr Hn];
      rewrite Hm; cbn; lia.
Qed.

Lemma loop_messages_answered (turns : list turn) :
  Forall answered turns ->
  messages_sent (events (loop turns)) = kept_lines keep turns
  /\ runs_started (events (loop turns)) = List.length (kept_lines keep turns).
Proof.
  induction 1 as [|t rest Ht Hrest [IHm IHr]].
  - rewrite loop_nil. split; reflexivity.
  - rewrite loop_cons, events_bind, messages_sent_app, runs_started_app.
    cbn [kept_lines].
    destruct (body_pass t) as [evs Hq Hm Hr | evs Hq Hk Hm Hr
                              | evs Hq Hk Hm Hr | evs e Hq Hk Hm Hr Hn].
    + apply String.eqb_eq in Hq. rewrite Hq, Hm, Hr. split; reflexivity.
    + apply String.eqb_neq in Hq. rewrite Hq, Hk, Hm, Hr, IHm, IHr.
      split; reflexivity.
    + apply String.eqb_neq in Hq. rewrite Hq, Hk, Hm, Hr, IHm, IHr.
      split; reflexivity.
    + contradiction.
Qed.

Lemma loop_returns_on_quit_only (turns : list turn) :
  outcome (loop turns) = Return tt ->
  Exists (fun t => lower (line t) = "quit") turns.
Proof.
  induction turns as [|t rest IH].
  - rewrite loop_nil. discriminate.
  - rewrite loop_cons, outcome_bind.
    destruct (body_pass t) as [evs Hq Hm Hr | evs Hq Hk Hm Hr
                              | evs Hq Hk Hm Hr | evs e Hq Hk Hm Hr Hn];
      intros H; try discriminate.
    + now left.
    + right. now apply IH.
    + right. now apply IH.
Qed.

Lemma loop_end_of_input (turns : list turn) :
  Forall (fun t => lower (line t) <> "quit") turns ->
  Forall answered turns ->
  outcome (loop turns) = Raise (mkExn ExEOFError "EOF when reading a line").
Proof.
  induction turns as [|t rest IH]; intros Hq Ha.
  - rewrite loop_nil. reflexivity.
  - inversion Hq as [|? ? Hqt Hqrest]; subst.
    inversion Ha as [|? ? Hat Harest]; subst.
    rewrite loop_cons, outcome_bind.
    destruct (body_pass t) as [evs Hq' Hm Hr | evs Hq' Hk Hm Hr
                              | evs Hq' Hk Hm Hr | evs e Hq' Hk Hm Hr Hn];
      try contradiction; now apply IH.
Qed.

End InputLoop.

(** X5. In both drivers the messages handed to [messages.create] are, in
    order, lines read before the first quit: those that are not empty in
    lead_processing.py, those that are not blank in the chat driver. What is
    handed over is always a leading part of that list, with at most one run
    per message; when the service answers every call, it is the whole list,
    with exactly one run per message. *)
Theorem drivers_append_the_lines_in_order
  (th : LeadProcessing.thread) (ag : LeadProcessing.agent) (agent_id : string)
  (turns : list LeadProcessing.turn) :
  (exists later,
     kept_lines not_empty turns
     = (messages_sent (events (LeadProcessing.prompt_loop th ag turns))
        ++ later)%list)
  /\ (exists later,
     kept_lines not_blank turns
     = (messages_sent (events (Chat.conversation_loop th agent_id turns))
        ++ later)%list)
  /\ (runs_started (events (LeadProcessing.prompt_loop th ag turns))
      <= List.length (messages_sent
                        (events (LeadProcessing.prompt_loop th ag turns))))%nat
  /\ (runs_started (events (Chat.conversation_loop th agent_id turns))
      <= List.length (messages_sent
                        (events (Chat.conversation_loop th agent_id turns))))%nat
  /\ (Forall answered turns ->
      messages_sent (events (LeadProcessing.prompt_loop th ag turns))
      = kept_lines not_empty turns
      /\ runs_started (events (LeadProcessing.prompt_loop th ag turns))
         = List.length (kept_lines not_empty turns)
      /\ messages_sent (events (Chat.conversation_loop th agent_id turns))
         = kept_lines not_blank turns
      /\ runs_started (events (Chat.conversation_loop th agent_id turns))
         = List.length (kept_lines not_blank turns)).
Proof.
  pose proof (lead_pass th ag) as Hl.
  pose proof (chat_pass th agent_id) as Hc.
  split; [exact (loop_messages_prefix not_empty _ _ _ eq_refl
                   (fun _ _ => eq_refl) Hl turns)|].
  split; [exact (loop_messages_prefix not_blank _ _ _ eq_refl
                   (fun _ _ => eq_refl) Hc turns)|].
  split; [exact (loop_runs_bound not_empty _ _ _ eq_refl
                   (fun _ _ => eq_refl) Hl turns)|].
  split; [exact (loop_runs_bound not_blank _ _ _ eq_refl
                   (fun _ _ => eq_refl) Hc turns)|].
  intros Ha.
  destruct (loop_messages_answered not_empty _ _
              (LeadProcessing.prompt_loop th ag) eq_refl
              (fun _ _ => eq_refl) Hl turns Ha) as [H1 H2].
  destruct (loop_messages_answered not_blank _ _
              (Chat.conversation_loop th agent_id) eq_refl
              (fun _ _ => eq_refl) Hc turns Ha) as [H3 H4].
  auto.
Qed.

(** X6. Either loop ends normally only at a quit line. When no line is quit
    and the service answers every call, the loop reads on until standard
    input is exhausted and ends with the [EOFError] of [input]. *)
Theorem loops_end_at_quit_or_end_of_input
  (th : LeadProcessing.thread) (ag : LeadProcessing.agent) (agent_id : string)
  (turns : list LeadProcessing.turn) :
  (outcome (LeadProcessing.prompt_loop th ag turns) = Return tt ->
   Exists (fun t => lower (LeadProcessing.line t) = "quit") turns)
  /\ (outcome (Chat.conversation_loop th agent_id turns) = Return tt ->
      Exists (fun t => lower (LeadProcessing.line t) = "quit") turns)
  /\ (Forall (fun t => lower (LeadProcessing.line t) <> "quit") turns ->
      Forall answered turns ->
      outcome (LeadProcessing.prompt_loop th ag turns)
      = Raise (mkExn ExEOFError "EOF when reading a line")
      /\ outcome (Chat.conversation_loop th agent_id turns)
         = Raise (mkExn ExEOFError "EOF when reading a line")).
Proof.
  pose proof (lead_pass th ag) as Hl.
  pose proof (chat_pass th agent_id) as Hc.
  split; [exact (loop_returns_on_quit_only not_empty _ _ _ eq_refl
                   (fun _ _ => eq_refl) Hl turns)|].
  split; [exact (loop_returns_on_quit_only not_blank _ _ _ eq_refl
                   (fun _ _ => eq_refl) Hc turns)|].
  intros Hq Ha. split.
  - exact (loop_end_of_input not_empty _ _ _ eq_refl (fun _ _ => eq_refl) Hl
             turns Hq Ha).
  - exact (loop_end_of_input not_blank _ _ _ eq_refl (fun _ _ => eq_refl) Hc
             turns Hq Ha).
Qed.

(** ** The input loops, line by line *)

Section LoopSteps.

Import LeadProcessing.

Variable th : thread.
Variable ag : agent.
Variable agent_id : string.



End LoopSteps.




(** ** Blank lines, configuration, a missing agent *)

(** Every character of the line is white space. *)
Definition all_space (s : string) : bool := forallb is_space_char (chars s).

Lemma drop_spaces_all (l : list string) :
  forallb is_space_char l = true -> drop_spaces l = [].
Proof.
  induction l as [|ch rest IH]; cbn; [reflexivity|].
  intros H. apply andb_true_iff in H as [Hc Hrest].
  rewrite Hc. now apply IH.
Qed.

Lemma strip_all_space (s : string) : all_space s = true -> strip s = "".
Proof.
  intros H. unfold strip. now rewrite (drop_spaces_all _ H).
Qed.

Lemma lower_ascii_q (c : ascii) :
  lower_ascii c = "q"%char -> c = "q"%char \/ c = "Q"%char.
Proof.
  destruct c as [[] [] [] [] [] [] [] []]; vm_compute; intros H;
    try discriminate H; auto.
Qed.

Lemma lower_ascii_u (c : ascii) :
  lower_ascii c = "u"%char -> c = "u"%char \/ c = "U"%char.
Proof.
  destruct c as [[] [] [] [] [] [] [] []]; vm_compute; intros H;
    try discriminate H; auto.
Qed.

Lemma blank_is_not_quit (s : string) :
  all_space s = true -> lower s <> "quit".
Proof.
  intros Hsp Hq.
  destruct s as [|c1 [|c2 rest]]; try discriminate Hq.
  cbn in Hq. injection Hq as H1 H2 _.
  unfold all_space in Hsp.
  destruct (lower_ascii_q c1 H1) as [-> | ->];
    destruct (lower_ascii_u c2 H2) as [-> | ->];
    cbn in Hsp; discriminate Hsp.
Qed.

(** X7. The two drivers treat a line of white space (of ASCII or of the rest
    of Unicode) differently: the chat driver asks again and sends nothing,
    while the loop of lead_processing.py, which tests the length of the line
    as typed, hands the blank line to [messages.create] as a message. *)
Theorem blank_line_retried_by_chat_sent_by_lead_loop
  (th : LeadProcessing.thread) (ag : LeadProcessing.agent) (agent_id : string)
  (ln : string) (created : result unit) (processed : result LeadProcessing.run)
  (last_msg : result (option string)) :
  ln <> "" -> all_space ln = true ->
  Chat.loop_body th agent_id (LeadProcessing.mkTurn ln created processed last_msg)
  = ([Stdin "Your Input: ";
      Stdout (("Please enter a message." ++ Chat.nl) ++ Chat.nl)],
     Return LeadProcessing.Continue)
  /\ messages_sent (events (LeadProcessing.loop_body th ag
                              (LeadProcessing.mkTurn ln created processed last_msg)))
     = [ln].
Proof.
  intros Hne Hsp.
  pose proof (blank_is_not_quit ln Hsp) as Hq. apply String.eqb_neq in Hq.
  split.
  - unfold Chat.loop_body. cbn.
      rewrite Hq, (strip_all_space ln Hsp). reflexivity.
  - unfold LeadProcessing.loop_body. cbn. rewrite Hq.
    destruct ln as [|c rest]; [congruence|]. cbn.
    destruct created as [[]|e]; cbn; [|reflexivity].
    destruct processed as [r|e]; cbn; [|reflexivity].
    destruct last_msg as [[v|]|e]; reflexivity.
Qed.

(** A line of a space, a no-break space (U+00A0) and a tab. *)
Definition blank_line : string := of_bytes [32; 194; 160; 9]%nat.

Lemma blank_line_retried_by_chat_sent_by_lead_loop_witness :
  Chat.loop_body (LeadProcessing.mkThread "thread_1") Chat.AGENT_ID
    (LeadProcessing.mkTurn blank_line (Return tt)
       (Return (LeadProcessing.mkRun "completed" "")) (Return (Some "Hello")))
  = ([Stdin "Your Input: ";
      Stdout (("Please enter a message." ++ Chat.nl) ++ Chat.nl)],
     Return LeadProcessing.Continue)
  /\ messages_sent (events (LeadProcessing.loop_body
                              (LeadProcessing.mkThread "thread_1")
                              (LeadProcessing.mkAgent "Lead-Generation-Agent" "asst_1")
                              (LeadProcessing.mkTurn blank_line (Return tt)
                                 (Return (LeadProcessing.mkRun "completed" ""))
                                 (Return (Some "Hello")))))
     = [blank_line].
Proof.
  apply (blank_line_retried_by_chat_sent_by_lead_loop
           (LeadProcessing.mkThread "thread_1")
           (LeadProcessing.mkAgent "Lead-Generation-Agent" "asst_1")
           Chat.AGENT_ID blank_line).
  - discriminate.
  - reflexivity.
Defined.

(** X8. Both setup programs check their four environment variables before
    anything else: when one of them is unset or empty, the program prints the
    error and ends, having contacted no service and read no input. *)
Theorem setup_programs_require_configuration
  (getenv : string -> option string) (w : LeadProcessing.world) :
  (truthy (getenv "AI_FOUNDARY_ENDPOINT") && truthy (getenv "MODEL_DEPLOYMENT_NAME")
   && truthy (getenv "AZURE_FUNCTION_BASE_URL")
   && truthy (getenv "AZURE_FUNCTION_CODE"))%bool = false ->
  exists msg,
    LeadProcessing.main getenv w
    = ([Stdout (("An error occurred: " ++ msg) ++ Chat.nl)], Return tt)
    /\ LeadSetupMain.main getenv w
       = ([Stdout ((Chat.nl ++ "❌ An error occurred: " ++ msg) ++ Chat.nl);
           PrintTraceback], Return tt).
Proof.
  intros H.
  unfold LeadProcessing.main, LeadSetupMain.main,
    LeadProcessing.AZURE_FUNCTION_BASE_URL, LeadProcessing.AZURE_FUNCTION_CODE,
    LeadSetup.azure_function_base_url, LeadSetup.azure_function_code,
    LeadSetupMain.project_endpoint, LeadSetupMain.model_deployment_name.
  destruct (truthy (getenv "AI_FOUNDARY_ENDPOINT"));
    destruct (truthy (getenv "MODEL_DEPLOYMENT_NAME"));
    try (eexists; split; reflexivity).
  destruct (truthy (getenv "AZURE_FUNCTION_BASE_URL"));
    destruct (truthy (getenv "AZURE_FUNCTION_CODE"));
    try (eexists; split; reflexivity).
  discriminate.
Qed.

Lemma setup_programs_require_configuration_witness :
  exists msg,
    LeadProcessing.main no_env
      (LeadProcessing.mkWorld (Raise (mkExn ExServiceError "unreachable"))
         (Raise (mkExn ExServiceError "unreachable")) [])
    = ([Stdout (("An error occurred: " ++ msg) ++ Chat.nl)], Return tt)
    /\ LeadSetupMain.main no_env
         (LeadProcessing.mkWorld (Raise (mkExn ExServiceError "unreachable"))
            (Raise (mkExn ExServiceError "unreachable")) [])
       = ([Stdout ((Chat.nl ++ "❌ An error occurred: " ++ msg) ++ Chat.nl);
           PrintTraceback], Return tt).
Proof.
  apply (setup_programs_require_configuration no_env). reflexivity.
Defined.

(** X9. When the client is built (the endpoint is set and the constructors
    return) and [get_agent] then fails, the chat interface reports the error
    and ends: it creates no thread and reads no input. *)
Theorem chat_ends_when_agent_cannot_be_fetched
  (getenv : string -> option string) (agent_id endpoint : string)
  (s : Chat.session) (e : exn) :
  getenv "AI_FOUNDARY_ENDPOINT" = Some endpoint ->
  Chat.client_answer s = Return tt ->
  LeadProcessing.agent_answer (Chat.service s) = Raise e ->
  Chat.run_chat_interface getenv agent_id s
  = ([Connect (Some endpoint) (getenv "AZURE_TENANT_ID");
      GetAgent agent_id;
      Stdout ((Chat.nl ++ "❌ An error occurred: " ++ str_exn e) ++ Chat.nl);
      PrintTraceback], Return tt).
Proof.
  intros He Hc H.
  unfold Chat.run_chat_interface, Chat.build_client, Chat.PROJECT_ENDPOINT,
    Chat.AZURE_TENANT_ID.
  rewrite He, Hc, H. reflexivity.
Qed.

(** An environment with every variable set. *)
Definition configured_env : string -> option string :=
  fun _ => Some "configured".

(** A session in which the client is built and the agent is unknown. *)
Definition session_without_agent : Chat.session :=
  Chat.mkSession (Return tt)
    (mkExn ExValueError "Parameter 'endpoint' must not be None.")
    (LeadProcessing.mkWorld (Raise (mkExn ExServiceError "No assistant found"))
       (Return (LeadProcessing.mkThread "thread_1")) []).

Lemma chat_ends_when_agent_cannot_be_fetched_witness :
  Chat.run_chat_interface configured_env Chat.AGENT_ID session_without_agent
  = ([Connect (Some "configured") (Some "configured");
      GetAgent Chat.AGENT_ID;
      Stdout ((Chat.nl ++ "❌ An error occurred: " ++ "No assistant found")
              ++ Chat.nl);
      PrintTraceback], Return tt).
Proof.
  apply (chat_ends_when_agent_cannot_be_fetched configured_env Chat.AGENT_ID
           "configured" session_without_agent
           (mkExn ExServiceError "No assistant found")).
  - reflexivity.
  - reflexivity.
  - reflexivity.
Defined.

Lemma entry_point_connects_with_hardcoded_agent_id_witness :
  exists later,
    events (Chat.dunder_main configured_env session_without_agent)
    = Connect (Some "configured") (configured_env "AZURE_TENANT_ID")
      :: GetAgent Chat.AGENT_ID :: later.
Proof.
  apply (proj1 (proj2 (proj2 (entry_point_connects_with_hardcoded_agent_id
                                configured_env session_without_agent)))
           "configured").
  - reflexivity.
  - reflexivity.
Defined.

(** ** The lead agent across the programs *)

(** The names under which a run creates agents. *)
Fixpoint agents_created (evs : list event) : list string :=
  match evs with
  | [] => []
  | CreateAgent _ name :: rest => name :: agents_created rest
  | _ :: rest => agents_created rest
  end.

Lemma agents_created_app (a b : list event) :
  agents_created (a ++ b) = (agents_created a ++ agents_created b)%list.
Proof.
  induction a as [|ev a IH]; [reflexivity|].
  destruct ev; cbn; rewrite IH; reflexivity.
Qed.

Lemma prompt_loop_creates_no_agent (th : LeadProcessing.thread)
  (ag : LeadProcessing.agent) (turns : list LeadProcessing.turn) :
  agents_created (events (LeadProcessing.prompt_loop th ag turns)) = [].
Proof.
  induction turns as [|t rest IH]; [reflexivity|].
  cbn [LeadProcessing.prompt_loop].
  rewrite events_bind, agents_created_app.
  assert (Hb : agents_created (events (LeadProcessing.loop_body th ag t)) = []).
  { unfold LeadProcessing.loop_body.
    destruct t as [ln [[]|?] [[st le]|?] [[?|]|?]]; cbn;
      destruct (lower ln =? "quit")%string; cbn;
      try destruct (String.length _ =? 0)%nat; reflexivity. }
  rewrite Hb.
  destruct (outcome (LeadProcessing.loop_body th ag t)) as [[|]|e];
    cbn; trivial.
Qed.

Lemma lead_processing_main_agent_names (getenv : string -> option string)
  (w : LeadProcessing.world) (name : string) :
  In name (agents_created (events (LeadProcessing.main getenv w))) ->
  name = "Lead-Generation-Agent".
Proof.
  unfold LeadProcessing.main.
  destruct (negb (truthy (getenv "AI_FOUNDARY_ENDPOINT"))
            || negb (truthy (getenv "MODEL_DEPLOYMENT_NAME")))%bool;
    [cbn; tauto|].
  destruct (negb (truthy (LeadProcessing.AZURE_FUNCTION_BASE_URL getenv))
            || negb (truthy (LeadProcessing.AZURE_FUNCTION_CODE getenv)))%bool;
    [cbn; tauto|].
  destruct w as [[ag|e] [th|e'] turns]; cbn; try (intros [H|[]]; now subst).
  pose proof (prompt_loop_creates_no_agent th ag turns) as Hl.
  destruct (LeadProcessing.prompt_loop th ag turns) as [out [[]|e]];
    cbn in Hl |- *.
  - rewrite Hl. intros [H|[]]; now subst.
  - rewrite agents_created_app, Hl. cbn. intros [H|[]]; now subst.
Qed.

Lemma lead_setup_main_agent_names (getenv : string -> option string)
  (w : LeadProcessing.world) (name : string) :
  In name (agents_created (events (LeadSetupMain.main getenv w))) ->
  name = "Lead_Generation_Agent".
Proof.
  unfold LeadSetupMain.main.
  destruct (negb (truthy (LeadSetupMain.project_endpoint getenv))
            || negb (truthy (LeadSetupMain.model_deployment_name getenv)))%bool;
    [cbn; tauto|].
  destruct (negb (truthy (LeadSetup.azure_function_base_url getenv))
            || negb (truthy (LeadSetup.azure_function_code getenv)))%bool;
    [cbn; tauto|].
  destruct w as [[ag|e] [th|e'] turns]; cbn; intros [H|[]]; now subst.
Qed.

(** X10. The support setup looks the lead agent up by the name that
    agent_lead_processing_setup.py gives it, so it finds an agent made by
    that program when the listing starts with it; the agent made by
    lead_processing.py carries another name (hyphens for underscores) and is
    not found. *)
Theorem lead_agent_found_by_the_name_of_the_setup_program
  (getenv : string -> option string) (w : LeadProcessing.world)
  (name id : string) (others : SupportSetup.paged) :
  (In name (agents_created (events (LeadSetupMain.main getenv w))) ->
   outcome (SupportSetup.get_lead_generation_agent_id
              (SupportSetup.PageItem (LeadProcessing.mkAgent name id) others))
   = Return (Some id))
  /\ (In name (agents_created (events (LeadProcessing.main getenv w))) ->
      outcome (SupportSetup.get_lead_generation_agent_id
                 (SupportSetup.PageItem (LeadProcessing.mkAgent name id)
                    SupportSetup.PageEnd))
      = Return None).
Proof.
  split; intros H.
  - apply lead_setup_main_agent_names in H. subst. reflexivity.
  - apply lead_processing_main_agent_names in H. subst. reflexivity.
Qed.

(** ** The OpenAPI document against the function tools *)

(** The fields a declared operation requires in its JSON body. *)
Definition required_body_fields (op : pyval) : list string :=
  match LeadSetup.at_path op
          ["requestBody"; "content"; "application/json"; "schema"; "required"] with
  | Some (PList fields) =>
      flat_map (fun f => match f with PStr s => [s] | _ => [] end) fields
  | _ => []
  end.

(** The keys of the JSON payloads a run posts. *)
Definition posted_keys (evs : list event) : list (list string) :=
  map (fun '(_, json, _) =>
         match json with
         | Some (PDict d) => map fst d
         | _ => []
         end)
      (http_posts evs).

(** X11. The two descriptions of the backend agree on the request bodies:
    the fields the OpenAPI document requires for [process_lead] and for
    [send_email_notification], both declared as POST, are the keys of the
    payloads that [update_cosmos_db] and [send_email_notification] post, in
    the same order; and each of the three declared operations requires the
    query parameter [code]. *)
Theorem declared_bodies_match_posted_payloads
  (getenv : string -> option string)
  (quote_id full_name email phone_number : string) (age : Z)
  (location to_email : string) (net : Requests.post_outcome) :
  (exists op,
     LeadSetup.declaration_of (LeadSetup.openapi_spec getenv) "process_lead"
     = Some ("/api/leads", "post", op)
     /\ posted_keys (events (LeadProcessing.update_cosmos_db getenv quote_id
                               full_name email phone_number age location net))
        = [required_body_fields op])
  /\ (exists op,
     LeadSetup.declaration_of (LeadSetup.openapi_spec getenv)
       "send_email_notification"
     = Some ("/api/send-email", "post", op)
     /\ posted_keys (events (LeadProcessing.send_email_notification getenv
                               to_email quote_id full_name net))
        = [required_body_fields op])
  /\ map (fun '(_, _, op) => LeadSetup.required_query_parameters op)
       (LeadSetup.operations (LeadSetup.openapi_spec getenv))
     = [["code"]; ["code"]; ["code"]].
Proof.
  destruct (tool_requests getenv "" quote_id full_name email phone_number age
              location to_email net) as (_ & Hu & Hs).
  unfold posted_keys. rewrite Hu, Hs.
  split; [eexists; split; reflexivity|].
  split; [eexists; split; reflexivity|].
  reflexivity.
Qed.

(** ** The support setup: the lookup of the lead agent *)

(** A listing that yields the agents of [before] and goes on as [tail]. *)
Fixpoint listed (before : list LeadProcessing.agent) (tail : SupportSetup.paged)
  : SupportSetup.paged :=
  match before with
  | [] => tail
  | a :: rest => SupportSetup.PageItem a (listed rest tail)
  end.

Definition other_name (a : LeadProcessing.agent) : Prop :=
  LeadProcessing.agent_name a <> SupportSetup.AGENT_NAME_TO_CONNECT.

Lemma search_agents_skips (before : list LeadProcessing.agent)
  (tail : SupportSetup.paged) :
  Forall other_name before ->
  SupportSetup.search_agents (listed before tail)
  = SupportSetup.search_agents tail.
Proof.
  induction 1 as [|a rest Ha Hrest IH]; [reflexivity|].
  cbn [listed SupportSetup.search_agents].
  apply String.eqb_neq in Ha. rewrite Ha. exact IH.
Qed.

(** X12. [get_lead_generation_agent_id] returns the id of the first listed
    agent named Lead_Generation_Agent, whatever the listing holds or does
    after it; it returns [None] when the listing ends, or fails, before such
    an agent shows up. It never raises. *)
Theorem lead_agent_lookup_takes_the_first_match
  (before : list LeadProcessing.agent) :
  Forall other_name before ->
  (forall a rest,
     LeadProcessing.agent_name a = SupportSetup.AGENT_NAME_TO_CONNECT ->
     outcome (SupportSetup.get_lead_generation_agent_id
                (listed before (SupportSetup.PageItem a rest)))
     = Return (Some (LeadProcessing.agent_id a)))
  /\ outcome (SupportSetup.get_lead_generation_agent_id
                (listed before SupportSetup.PageEnd)) = Return None
  /\ (forall e,
     outcome (SupportSetup.get_lead_generation_agent_id
                (listed before (SupportSetup.PageFails e))) = Return None
     /\ exists shown,
          stdout_of (events (SupportSetup.get_lead_generation_agent_id
                               (listed before (SupportSetup.PageFails e))))
          = [shown;
             ("❌ Error retrieving Lead Generation Agent: " ++ str_exn e)
             ++ Chat.nl]).
Proof.
  intros Hb. unfold SupportSetup.get_lead_generation_agent_id.
  repeat split.
  - intros a rest Ha. cbn [bind print emit].
    rewrite (search_agents_skips before _ Hb). cbn.
    apply String.eqb_eq in Ha. rewrite Ha. reflexivity.
  - cbn [bind print emit]. rewrite (search_agents_skips before _ Hb).
    reflexivity.
  - cbn [bind print emit]. rewrite (search_agents_skips before _ Hb).
    reflexivity.
  - cbn [bind print emit]. rewrite (search_agents_skips before _ Hb).
    eexists. reflexivity.
Qed.

Lemma lead_agent_lookup_takes_the_first_match_witness :
  outcome (SupportSetup.get_lead_generation_agent_id
             (listed [LeadProcessing.mkAgent "Lead-Generation-Agent" "asst_1"]
                (SupportSetup.PageItem
                   (LeadProcessing.mkAgent "Lead_Generation_Agent" "asst_2")
                   (SupportSetup.PageFails (mkExn ExServiceError "page 2")))))
  = Return (Some "asst_2").
Proof.
  apply (proj1 (lead_agent_lookup_takes_the_first_match
                  [LeadProcessing.mkAgent "Lead-Generation-Agent" "asst_1"]
                  ltac:(repeat constructor; discriminate))
           (LeadProcessing.mkAgent "Lead_Generation_Agent" "asst_2")
           (SupportSetup.PageFails (mkExn ExServiceError "page 2"))).
  reflexivity.
Defined.

(** ** The upload: completion, bounds, failures *)

Fixpoint polls_made (evs : list event) : nat :=
  match evs with
  | [] => O
  | VectorStoresGet _ :: rest => S (polls_made rest)
  | _ :: rest => polls_made rest
  end.

Fixpoint seconds_slept (evs : list event) : Z :=
  match evs with
  | [] => 0
  | Sleep s :: rest => s + seconds_slept rest
  | _ :: rest => seconds_slept rest
  end.

Lemma stdout_of_app (a b : list event) :
  stdout_of (a ++ b) = (stdout_of a ++ stdout_of b)%list.
Proof.
  induction a as [|ev a IH]; [reflexivity|].
  destruct ev; cbn; rewrite IH; reflexivity.
Qed.

Lemma polls_made_app (a b : list event) :
  polls_made (a ++ b) = (polls_made a + polls_made b)%nat.
Proof.
  induction a as [|ev a IH]; [reflexivity|].
  destruct ev; cbn; rewrite IH; reflexivity.
Qed.

Lemma seconds_slept_app (a b : list event) :
  seconds_slept (a ++ b) = seconds_slept a + seconds_slept b.
Proof.
  induction a as [|ev a IH]; [reflexivity|].
  destruct ev; cbn [app seconds_slept]; rewrite IH; lia.
Qed.

Section UploadBounds.

Variable w : Support.world.

(** With [m] passes left before the bound, the loop polls at most [m] times
    and sleeps at most [2 m] seconds. *)
Lemma wait_loop_bounded (m : nat) (n : nat) (elapsed : Z) (vs : Support.vector_store) :
  Support.max_wait - elapsed <= 2 * Z.of_nat m ->
  (polls_made (events (Support.wait_loop w n elapsed vs)) <= m)%nat
  /\ 0 <= seconds_slept (events (Support.wait_loop w n elapsed vs)) <= 2 * Z.of_nat m.
Proof.
  revert n elapsed vs. induction m as [|m IH]; intros n elapsed vs Hm.
  - rewrite wait_loop_unfold.
    assert (E : (elapsed <? Support.max_wait) = false) by (apply Z.ltb_ge; lia).
    rewrite E. cbn. lia.
  - rewrite wait_loop_unfold.
    destruct (elapsed <? Support.max_wait) eqn:E; [|cbn; lia].
    destruct (Support.polled w n) as [vs1|e]; [|cbn; lia].
    cbn [bind call].
    destruct (Support.status vs1 =? "completed")%string; [cbn; lia|].
    destruct (Support.status vs1 =? "failed")%string; [cbn; lia|].
    destruct (IH (S n) (elapsed + 2) vs1 ltac:(lia)) as [Hp Hs].
    remember (Support.wait_loop w (S n) (elapsed + 2) vs1) as rest eqn:Erest.
    clear Erest. destruct rest as [out r].
    cbn [bind emit print_end app events fst polls_made seconds_slept]
      in Hp, Hs |- *.
    lia.
Qed.

(** When the first poll that is not pending comes within the 30 passes and
    finds the store completed, the loop leaves with that store object. *)
Lemma wait_loop_completed (k n : nat) (vs ready : Support.vector_store) :
  (n + k < 30)%nat ->
  (forall j, (n <= j < n + k)%nat -> pending (Support.polled w j)) ->
  Support.polled w (n + k) = Return ready -> Support.status ready = "completed" ->
  outcome (Support.wait_loop w n (2 * Z.of_nat n) vs) = Return ready
  /\ polls_made (events (Support.wait_loop w n (2 * Z.of_nat n) vs)) = S k
  /\ stdout_of (events (Support.wait_loop w n (2 * Z.of_nat n) vs))
     = (repeat "." k ++ [("✓ Vector store ready!" ++ Chat.nl)%string])%list.
Proof.
  revert n vs. induction k as [|k IH]; intros n vs Hn Hp Hk Hc.
  - rewrite wait_loop_unfold.
    assert (E : (2 * Z.of_nat n <? Support.max_wait) = true)
      by (apply Z.ltb_lt; unfold Support.max_wait; lia).
    rewrite E. rewrite Nat.add_0_r in Hk. rewrite Hk. cbn. rewrite Hc.
    repeat split.
  - rewrite wait_loop_unfold.
    assert (E : (2 * Z.of_nat n <? Support.max_wait) = true)
      by (apply Z.ltb_lt; unfold Support.max_wait; lia).
    rewrite E, elapsed_step.
    destruct (Hp n ltac:(lia)) as (vs1 & Hpoll & Hc1 & Hf1).
    rewrite Hpoll.
    apply String.eqb_neq in Hc1. apply String.eqb_neq in Hf1.
    assert (IHk := IH (S n) vs1 ltac:(lia)
                     ltac:(intros j Hj; apply Hp; lia)
                     ltac:(replace (S n + k)%nat with (n + S k)%nat by lia;
                           exact Hk) Hc).
    destruct IHk as (Ho & Hpolls & Hout).
    cbn [bind call]. rewrite Hc1, Hf1.
    remember (Support.wait_loop w (S n) (2 * Z.of_nat (S n)) vs1) as rest eqn:Erest in *.
    clear Erest. cbn. destruct rest as [out r].
    cbn in Ho, Hpolls, Hout |- *. subst r.
    repeat split; [now rewrite Hpolls | now rewrite Hout].
Qed.

(** When, within the 30 passes, the first poll that does not find the store
    pending raises, the loop raises that exception. *)
Lemma wait_loop_raises (k n : nat) (vs : Support.vector_store) (e : exn) :
  (n + k < 30)%nat ->
  (forall j, (n <= j < n + k)%nat -> pending (Support.polled w j)) ->
  Support.polled w (n + k) = Raise e ->
  outcome (Support.wait_loop w n (2 * Z.of_nat n) vs) = Raise e.
Proof.
  revert n vs. induction k as [|k IH]; intros n vs Hn Hp Hk.
  - rewrite wait_loop_unfold.
    assert (E : (2 * Z.of_nat n <? Support.max_wait) = true)
      by (apply Z.ltb_lt; unfold Support.max_wait; lia).
    rewrite E. rewrite Nat.add_0_r in Hk. rewrite Hk. reflexivity.
  - rewrite wait_loop_unfold.
    assert (E : (2 * Z.of_nat n <? Support.max_wait) = true)
      by (apply Z.ltb_lt; unfold Support.max_wait; lia).
    rewrite E, elapsed_step.
    destruct (Hp n ltac:(lia)) as (vs1 & Hpoll & Hc1 & Hf1).
    rewrite Hpoll.
    apply String.eqb_neq in Hc1. apply String.eqb_neq in Hf1.
    assert (IHk := IH (S n) vs1 ltac:(lia)
                     ltac:(intros j Hj; apply Hp; lia)
                     ltac:(replace (S n + k)%nat with (n + S k)%nat by lia;
                           exact Hk)).
    cbn [bind call]. rewrite Hc1, Hf1.
    remember (Support.wait_loop w (S n) (2 * Z.of_nat (S n)) vs1) as rest eqn:Erest in *.
    clear Erest. cbn. destruct rest as [out r].
    cbn in IHk |- *. now subst r.
Qed.

End UploadBounds.


(** X13. Once the file is uploaded and the store created: when the first
    poll that does not find the store pending comes within the 30 polls and
    finds it completed, the upload returns the id of that store object after
    exactly that many polls, having printed one dot per earlier poll and then
    the ready line. *)
Theorem upload_returns_when_store_completes
  (w : Support.world) (faq_file_path : string)
  (f : Support.file) (vs0 ready : Support.vector_store) (k : nat) :
  Support.opened w = Return tt ->
  Support.uploaded w = Return f ->
  Support.created w = Return vs0 ->
  (k < 30)%nat ->
  (forall j, (j < k)%nat -> pending (Support.polled w j)) ->
  Support.polled w k = Return ready ->
  Support.status ready = "completed" ->
  outcome (Support.upload_faq_to_vector_store w faq_file_path)
  = Return (Support.id ready)
  /\ polls_made (events (Support.upload_faq_to_vector_store w faq_file_path))
     = S k
  /\ stdout_of (events (Support.upload_faq_to_vector_store w faq_file_path))
     = (upload_banner f vs0 ++ repeat "." k
        ++ [("✓ Vector store ready!" ++ Chat.nl)%string])%list.
Proof.
  intros Ho Hu Hc Hk Hp Hpoll Hr.
  destruct (wait_loop_completed w k 0 vs0 ready ltac:(lia)
              ltac:(intros; apply Hp; lia) Hpoll Hr) as (Hout & Hpolls & Hdots).
  change (2 * Z.of_nat 0) with 0 in Hout, Hpolls, Hdots.
  unfold Support.upload_faq_to_vector_store. rewrite Ho, Hu, Hc.
  cbn [bind call print emit].
  remember (Support.wait_loop w 0 0 vs0) as rest eqn:E. clear E.
  destruct rest as [out r]. cbn in Hout, Hpolls, Hdots |- *. subst r.
  rewrite app_nil_r. cbn. rewrite Hpolls, Hdots. repeat split.
Qed.

(** A store that completes at the third poll. *)
Definition quick_store : Support.world :=
  Support.mkWorld (Return tt) (Return (Support.mkFile "file_1"))
    (Return (Support.mkStore "vs_1" "in_progress"))
    (fun n => if (n <? 2)%nat
              then Return (Support.mkStore "vs_1" "in_progress")
              else Return (Support.mkStore "vs_1" "completed")).

Lemma upload_returns_when_store_completes_witness :
  outcome (Support.upload_faq_to_vector_store quick_store "faq.txt")
  = Return "vs_1"
  /\ polls_made (events (Support.upload_faq_to_vector_store quick_store "faq.txt"))
     = 3%nat
  /\ stdout_of (events (Support.upload_faq_to_vector_store quick_store "faq.txt"))
     = (upload_banner (Support.mkFile "file_1")
          (Support.mkStore "vs_1" "in_progress") ++ repeat "." 2
        ++ [("✓ Vector store ready!" ++ Chat.nl)%string])%list.
Proof.
  apply (upload_returns_when_store_completes quick_store "faq.txt"
           (Support.mkFile "file_1") (Support.mkStore "vs_1" "in_progress")
           (Support.mkStore "vs_1" "completed") 2 eq_refl eq_refl eq_refl).
  - lia.
  - intros j Hj. exists (Support.mkStore "vs_1" "in_progress").
    repeat split; try discriminate.
    unfold quick_store. cbn [Support.polled].
    apply Nat.ltb_lt in Hj. rewrite Hj. reflexivity.
  - reflexivity.
  - reflexivity.
Defined.

(** X14. Whatever the service answers, one upload polls the vector store at
    most 30 times and sleeps at most 60 seconds in all. *)
Theorem upload_waits_at_most_a_minute
  (w : Support.world) (faq_file_path : string) :
  (polls_made (events (Support.upload_faq_to_vector_store w faq_file_path))
   <= 30)%nat
  /\ 0 <= seconds_slept
            (events (Support.upload_faq_to_vector_store w faq_file_path))
     <= 60.
Proof.
  unfold Support.upload_faq_to_vector_store.
  destruct (Support.opened w) as [[]|e]; [|cbn; lia].
  destruct (Support.uploaded w) as [f|e]; [|cbn; lia].
  destruct (Support.created w) as [vs0|e]; [|cbn; lia].
  cbn [bind call print emit].
  destruct (wait_loop_bounded w 30 0 0 vs0 ltac:(unfold Support.max_wait; lia))
    as [Hp Hs].
  remember (Support.wait_loop w 0 0 vs0) as rest eqn:E. clear E.
  destruct rest as [out [vs|e]];
    cbn [try_except bind ret raise emit print app events fst outcome snd
         polls_made seconds_slept] in Hp, Hs |- *;
    rewrite ?app_nil_r, ?polls_made_app, ?seconds_slept_app;
    cbn [polls_made seconds_slept]; lia.
Qed.

(** X15. The upload swallows no exception. Whenever it raises, the last
    thing it printed is the error line with the text of the exception it
    raises. And every exception of a step leaves the function as it is: that
    of opening the file (with no call made to the service), of
    [files.upload], of [vector_stores.create], and of a [vector_stores.get]
    that comes, within the 30 polls, after polls that found the store
    pending. *)
Theorem upload_reports_and_reraises
  (w : Support.world) (faq_file_path : string) (e : exn) :
  (outcome (Support.upload_faq_to_vector_store w faq_file_path) = Raise e ->
   exists before,
     stdout_of (events (Support.upload_faq_to_vector_store w faq_file_path))
     = (before
        ++ [(("❌ Error uploading FAQ file: " ++ str_exn e) ++ Chat.nl)%string])%list)
  /\ (Support.opened w = Raise e ->
      Support.upload_faq_to_vector_store w faq_file_path
      = ([Stdout ((Chat.nl ++ "📤 Uploading FAQ file to vector store...")
                  ++ Chat.nl);
          OpenFile faq_file_path;
          Stdout (("❌ Error uploading FAQ file: " ++ str_exn e) ++ Chat.nl)],
         Raise e))
  /\ (Support.opened w = Return tt -> Support.uploaded w = Raise e ->
      outcome (Support.upload_faq_to_vector_store w faq_file_path) = Raise e)
  /\ (forall f,
      Support.opened w = Return tt -> Support.uploaded w = Return f ->
      Support.created w = Raise e ->
      outcome (Support.upload_faq_to_vector_store w faq_file_path) = Raise e)
  /\ (forall f vs0 k,
      Support.opened w = Return tt -> Support.uploaded w = Return f ->
      Support.created w = Return vs0 ->
      (k < 30)%nat ->
      (forall j, (j < k)%nat -> pending (Support.polled w j)) ->
      Support.polled w k = Raise e ->
      outcome (Support.upload_faq_to_vector_store w faq_file_path) = Raise e).
Proof.
  split; [|split; [|split; [|split]]].
  - unfold Support.upload_faq_to_vector_store.
    match goal with
    | |- context [try_except ?b ?h] => generalize b
    end.
    intros [out [a|e']]; cbn; [discriminate|].
    intros H. injection H as ->.
    rewrite stdout_of_app. eexists. reflexivity.
  - intros H. unfold Support.upload_faq_to_vector_store. rewrite H.
    reflexivity.
  - intros Ho Hu. unfold Support.upload_faq_to_vector_store.
    rewrite Ho, Hu. reflexivity.
  - intros f Ho Hu Hc. unfold Support.upload_faq_to_vector_store.
    rewrite Ho, Hu, Hc. reflexivity.
  - intros f vs0 k Ho Hu Hc Hk Hp Hpoll.
    pose proof (wait_loop_raises w k 0 vs0 e ltac:(lia)
                  ltac:(intros; apply Hp; lia) Hpoll) as Hloop.
    change (2 * Z.of_nat 0) with 0 in Hloop.
    unfold Support.upload_faq_to_vector_store. rewrite Ho, Hu, Hc.
    cbn [bind call print emit].
    remember (Support.wait_loop w 0 0 vs0) as rest eqn:E. clear E.
    destruct rest as [out r]. cbn in Hloop |- *. now subst r.
Qed.

(** A store whose third poll is refused by the service. *)
Definition unreachable_store : Support.world :=
  Support.mkWorld (Return tt) (Return (Support.mkFile "file_1"))
    (Return (Support.mkStore "vs_1" "in_progress"))
    (fun n => if (n <? 2)%nat
              then Return (Support.mkStore "vs_1" "in_progress")
              else Raise (mkExn ExServiceError "service unavailable")).

Lemma upload_reports_and_reraises_witness :
  outcome (Support.upload_faq_to_vector_store unreachable_store "faq.txt")
  = Raise (mkExn ExServiceError "service unavailable")
  /\ exists before,
       stdout_of (events (Support.upload_faq_to_vector_store unreachable_store
                            "faq.txt"))
       = (before
          ++ [(("❌ Error uploading FAQ file: " ++ "service unavailable")
               ++ Chat.nl)%string])%list.
Proof.
  assert (H : outcome (Support.upload_faq_to_vector_store unreachable_store
                         "faq.txt")
              = Raise (mkExn ExServiceError "service unavailable")).
  { apply (proj2 (proj2 (proj2 (proj2
             (upload_reports_and_reraises unreachable_store "faq.txt"
                (mkExn ExServiceError "service unavailable")))))
             (Support.mkFile "file_1") (Support.mkStore "vs_1" "in_progress")
             2%nat eq_refl eq_refl eq_refl).
    - lia.
    - intros j Hj. exists (Support.mkStore "vs_1" "in_progress").
      repeat split; try discriminate.
      unfold unreachable_store. cbn [Support.polled].
      apply Nat.ltb_lt in Hj. rewrite Hj. reflexivity.
    - reflexivity. }
  split; [exact H|].
  exact (proj1 (upload_reports_and_reraises unreachable_store "faq.txt"
                  (mkExn ExServiceError "service unavailable")) H).
Defined.

(** ** The support setup as a whole *)



(** X16. The support setup checks the FAQ file and then its two environment
    variables before anything else: when the file does not exist, or when a
    variable is unset or empty, it prints the failure and returns the triple
    of [None]s, having contacted no service. *)
Theorem support_setup_requires_file_and_configuration
  (getenv : string -> option string) (w : SupportSetup.world)
  (faq_file_path : string) :
  (SupportSetup.file_exists w = false ->
   SupportSetup.create_life_insurance_faq_agent getenv w faq_file_path
   = ([Stdout ((Chat.nl ++ "❌ Setup failed: " ++ "FAQ file not found: "
                ++ faq_file_path) ++ Chat.nl);
       PrintTraceback], Return None))
  /\ (SupportSetup.file_exists w = true ->
      (truthy (getenv "AI_FOUNDARY_ENDPOINT")
       && truthy (getenv "MODEL_DEPLOYMENT_NAME"))%bool = false ->
      SupportSetup.create_life_insurance_faq_agent getenv w faq_file_path
      = ([Stdout ((Chat.nl ++ "❌ Setup failed: "
                   ++ "AI_FOUNDARY_ENDPOINT and MODEL_DEPLOYMENT_NAME must be set")
                  ++ Chat.nl);
          PrintTraceback], Return None)).
Proof.
  unfold SupportSetup.create_life_insurance_faq_agent,
    SupportSetup.project_endpoint, SupportSetup.model_deployment_name.
  split.
  - intros ->. reflexivity.
  - intros -> H.
    destruct (truthy (getenv "AI_FOUNDARY_ENDPOINT"));
      destruct (truthy (getenv "MODEL_DEPLOYMENT_NAME"));
      try discriminate; reflexivity.
Qed.




(** ** The cost calculator over a session *)

(** One call of [calculate_cost] after another on the same calculator; a
    call that raises leaves the calculator to the next one. *)
Fixpoint record_calls (self : Cost.OpenAICostCalculator)
  (calls : list (string * Z * Z * string)) : Cost.OpenAICostCalculator :=
  match calls with
  | [] => self
  | (model, input_tokens, output_tokens, now) :: rest =>
      record_calls
        (fst (Cost.calculate_cost self model input_tokens output_tokens now))
        rest
  end.

Lemma calculate_cost_step (self : Cost.OpenAICostCalculator) (model : string)
  (input_tokens output_tokens : Z) (now : string) :
  (fst (Cost.calculate_cost self model input_tokens output_tokens now) = self
   /\ exists e, outcome (snd (Cost.calculate_cost self model input_tokens
                                output_tokens now)) = Raise e)
  \/ (exists rec,
        outcome (snd (Cost.calculate_cost self model input_tokens
                        output_tokens now)) = Return rec
        /\ Cost.session_costs
             (fst (Cost.calculate_cost self model input_tokens output_tokens now))
           = (Cost.session_costs self ++ [rec])%list
        /\ Cost.model rec = model
        /\ Cost.input_tokens rec = input_tokens
        /\ Cost.output_tokens rec = output_tokens
        /\ Cost.timestamp rec = now
        /\ In model (map fst Cost.OPENAI_PRICING)).
Proof.
  unfold Cost.calculate_cost.
  destruct (Cost.lookup model Cost.OPENAI_PRICING) as [p|] eqn:Hl.
  - assert (Hin : In model (map fst Cost.OPENAI_PRICING)).
    { destruct (in_dec string_dec model (map fst Cost.OPENAI_PRICING)) as [H|H];
        [assumption|].
      apply lookup_None in H. congruence. }
    destruct (Cost.int_truediv input_tokens 1000000) as [qi|e];
      [|left; split; [reflexivity | eexists; reflexivity]].
    destruct (Cost.int_truediv output_tokens 1000000) as [qo|e];
      [|left; split; [reflexivity | eexists; reflexivity]].
    right. eexists. repeat split. exact Hin.
  - left. split; [reflexivity | eexists; reflexivity].
Qed.

(** X18. [session_costs] only grows: over any sequence of calls of
    [calculate_cost], the records held before stay as they were, at the front
    and in order; at most one record is added per call; and every added
    record names a model of the pricing table. *)
Theorem session_costs_only_grow
  (self : Cost.OpenAICostCalculator) (calls : list (string * Z * Z * string)) :
  exists added,
    Cost.session_costs (record_calls self calls)
    = (Cost.session_costs self ++ added)%list
    /\ (List.length added <= List.length calls)%nat
    /\ Forall (fun rec => In (Cost.model rec) (map fst Cost.OPENAI_PRICING))
         added.
Proof.
  revert self. induction calls as [|[[[model it] ot] now] rest IH]; intros self.
  - exists []. cbn. rewrite app_nil_r. repeat split; constructor.
  - cbn [record_calls].
    destruct (IH (fst (Cost.calculate_cost self model it ot now)))
      as (added & Heq & Hlen & Hall).
    destruct (calculate_cost_step self model it ot now)
      as [[Hsame _] | (rec & _ & Happ & Hmodel & _ & _ & _ & Hin)].
    + rewrite Hsame in Heq |- *. exists added. cbn. repeat split; trivial. lia.
    + rewrite Happ, <- app_assoc in Heq. exists (rec :: added).
      cbn. repeat split; trivial; try lia.
      constructor; [now rewrite Hmodel | exact Hall].
Qed.

Lemma sum_ints_snoc (l : list Z) (x : Z) :
  CostSummary.sum_ints (l ++ [x]) = CostSummary.sum_ints l + x.
Proof.
  unfold CostSummary.sum_ints. rewrite fold_left_app. reflexivity.
Qed.

(** X19. The summary follows the calls: a new calculator reports that it has
    no records; after a call of [calculate_cost] that returns, the summary
    holds the totals, with one call more than the records held before and
    the token totals raised by the tokens of the call. *)
Theorem summary_counts_each_returned_call
  (sum_floats : list float -> float)
  (self : Cost.OpenAICostCalculator) (model : string)
  (input_tokens output_tokens : Z) (now : string) (rec : Cost.CostRecord) :
  outcome (snd (Cost.calculate_cost self model input_tokens output_tokens now))
  = Return rec ->
  CostSummary.get_session_summary sum_floats Cost.init
  = CostSummary.NoRecords "No cost records in this session"
  /\ exists cost,
       CostSummary.get_session_summary sum_floats
         (fst (Cost.calculate_cost self model input_tokens output_tokens now))
       = CostSummary.Totals
           (Z.of_nat (List.length (Cost.session_costs self)) + 1)
           (CostSummary.sum_ints (map Cost.input_tokens (Cost.session_costs self))
            + input_tokens)
           (CostSummary.sum_ints (map Cost.output_tokens (Cost.session_costs self))
            + output_tokens)
           cost
           (Cost.session_costs self ++ [rec])%list.
Proof.
  intros Hret. split; [reflexivity|].
  destruct (calculate_cost_step self model input_tokens output_tokens now)
    as [[_ [e He]] | (rec' & Hr & Happ & _ & Hi & Ho & _ & _)].
  - rewrite He in Hret. discriminate.
  - rewrite Hr in Hret. injection Hret as ->.
    unfold CostSummary.get_session_summary. rewrite Happ.
    destruct (Cost.session_costs self ++ [rec])%list as [|r0 rs] eqn:E.
    + destruct (Cost.session_costs self); discriminate.
    + cbv beta iota zeta. rewrite <- E.
      rewrite !map_app, length_app. cbn [map List.length].
      rewrite !sum_ints_snoc, Hi, Ho. eexists. f_equal. lia.
Qed.

#[warnings="-inexact-float"]
Lemma summary_counts_each_returned_call_witness :
  CostSummary.get_session_summary (fun _ => 0%float) Cost.init
  = CostSummary.NoRecords "No cost records in this session"
  /\ exists cost,
       CostSummary.get_session_summary (fun _ => 0%float)
         (fst (Cost.calculate_cost Cost.init "gpt-4o" 1200 300
                 "2026-01-01T00:00:00"))
       = CostSummary.Totals
           (Z.of_nat (List.length (Cost.session_costs Cost.init)) + 1)
           (CostSummary.sum_ints (map Cost.input_tokens (Cost.session_costs Cost.init))
            + 1200)
           (CostSummary.sum_ints (map Cost.output_tokens (Cost.session_costs Cost.init))
            + 300)
           cost
           (Cost.session_costs Cost.init
            ++ [Cost.mkCostRecord "gpt-4o" 1200 300 0.003%float 0.003%float
                  0.006%float "2026-01-01T00:00:00"])%list.
Proof.
  apply (summary_counts_each_returned_call (fun _ => 0%float) Cost.init "gpt-4o"
           1200 300 "2026-01-01T00:00:00").
  vm_compute. reflexivity.
Defined.

(** X20. A call with no tokens at all costs nothing: for every model of the
    pricing table, [calculate_cost] with zero input and output tokens returns
    and appends a record whose three costs are 0.0, and prints a cost of
    $0.000000. *)
Theorem zero_tokens_cost_nothing
  (self : Cost.OpenAICostCalculator) (model now : string) :
  In model (map fst Cost.OPENAI_PRICING) ->
  Cost.calculate_cost self model 0 0 now
  = (Cost.mkCalculator
       (Cost.session_costs self
        ++ [Cost.mkCostRecord model 0 0 0%float 0%float 0%float now])%list,
     ([Stdout (("[LLM] " ++ model
                ++ " | Input: 0 | Output: 0 | Cost: $0.000000") ++ Chat.nl)],
      Return (Cost.mkCostRecord model 0 0 0%float 0%float 0%float now))).
Proof.
  intros Hin. cbn in Hin.
  repeat (destruct Hin as [<- | Hin]; [reflexivity|]).
  contradiction.
Qed.

Lemma zero_tokens_cost_nothing_witness :
  Cost.calculate_cost Cost.init "gpt-4o-mini" 0 0 "2026-01-01T00:00:00"
  = (Cost.mkCalculator
       (Cost.session_costs Cost.init
        ++ [Cost.mkCostRecord "gpt-4o-mini" 0 0 0%float 0%float 0%float
              "2026-01-01T00:00:00"])%list,
     ([Stdout (("[LLM] " ++ "gpt-4o-mini"
                ++ " | Input: 0 | Output: 0 | Cost: $0.000000") ++ Chat.nl)],
      Return (Cost.mkCostRecord "gpt-4o-mini" 0 0 0%float 0%float 0%float
                "2026-01-01T00:00:00"))).
Proof.
  apply (zero_tokens_cost_nothing Cost.init "gpt-4o-mini" "2026-01-01T00:00:00").
  cbn. tauto.
Defined.

(** ** The JSONL dataset of eval.py *)

(** The text of a JSONL file: one line per item. *)
Fixpoint jsonl (texts : list string) : string :=
  match texts with
  | [] => ""
  | text :: rest => (text ++ Chat.nl) ++ jsonl rest
  end.

(** What a run printed. *)
Fixpoint printed (evs : list Eval.io) : list string :=
  match evs with
  | [] => []
  | Eval.Out text :: rest => text :: printed rest
  | _ :: rest => printed rest
  end.

Lemma string_append_assoc (a b c : string) : (a ++ b) ++ c = a ++ (b ++ c).
Proof. induction a as [|x a IH]; cbn; [reflexivity | now rewrite IH]. Qed.

Lemma string_append_nil_r (a : string) : a ++ "" = a.
Proof. induction a as [|x a IH]; cbn; [reflexivity | now rewrite IH]. Qed.

Section DatasetProperties.

Variable dumps : pyval -> result string.

Lemma file_text_app (a b : list Eval.io) :
  Eval.file_text (a ++ b) = Eval.file_text a ++ Eval.file_text b.
Proof.
  induction a as [|ev a IH]; [reflexivity|].
  destruct ev; cbn; rewrite ?IH; trivial.
  now rewrite string_append_assoc.
Qed.

Lemma printed_app (a b : list Eval.io) :
  printed (a ++ b) = (printed a ++ printed b)%list.
Proof.
  induction a as [|ev a IH]; [reflexivity|].
  destruct ev; cbn; rewrite IH; reflexivity.
Qed.

(** The loop writes the items whose text [dumps] gives, up to the first item
    it refuses. *)
Lemma write_items_written (data : list pyval) (texts : list string)
  (after : list pyval) (r : result unit) :
  Forall2 (fun item text => dumps item = Return text) data texts ->
  snd (Eval.write_items dumps after) = r ->
  (after = [] \/ exists bad rest e, after = bad :: rest /\ dumps bad = Raise e) ->
  Eval.file_text (fst (Eval.write_items dumps (data ++ after))) = jsonl texts
  /\ printed (fst (Eval.write_items dumps (data ++ after))) = []
  /\ snd (Eval.write_items dumps (data ++ after)) = r.
Proof.
  intros Hall Hr Hafter.
  assert (Hbase : Eval.file_text (fst (Eval.write_items dumps after)) = ""
                  /\ printed (fst (Eval.write_items dumps after)) = []).
  { destruct Hafter as [-> | (bad & rest & e & -> & Hbad)]; cbn.
    - split; reflexivity.
    - rewrite Hbad. split; reflexivity. }
  induction Hall as [|item text data texts Hitem Hrest IH]; cbn [app].
  - cbn [jsonl]. tauto.
  - cbn [Eval.write_items jsonl]. rewrite Hitem.
    destruct (Eval.write_items dumps (data ++ after)) as [out r'].
    cbn in IH |- *. destruct IH as (Ht & Hp & Hr'). rewrite Ht.
    repeat split; trivial.
Qed.

(** X21. [create_mock_jsonl_dataset] never raises, whatever the data and
    whether or not the file can be opened. When the file cannot be opened,
    nothing is written and the text of the exception is printed. When it is
    opened and every item can be serialised, the file holds one line per
    item, in order, each the text of [json.dumps] followed by a newline, and
    the run reports success. When an item cannot be serialised, the file
    holds the lines of the items before it, and the run prints the text of
    the exception. *)
Theorem dataset_file_holds_one_line_per_item
  (file_path : string) (data : list pyval) (texts : list string) :
  Forall2 (fun item text => dumps item = Return text) data texts ->
  (Eval.file_text (fst (Eval.create_mock_jsonl_dataset dumps file_path data
                          (Return tt))) = jsonl texts
   /\ printed (fst (Eval.create_mock_jsonl_dataset dumps file_path data
                      (Return tt)))
      = [("-> Creating mock dataset at " ++ file_path) ++ Chat.nl;
         "-> Dataset created successfully." ++ Chat.nl]
   /\ snd (Eval.create_mock_jsonl_dataset dumps file_path data (Return tt))
      = Return tt)
  /\ (forall bad rest e, dumps bad = Raise e ->
      Eval.file_text (fst (Eval.create_mock_jsonl_dataset dumps file_path
                             (data ++ bad :: rest) (Return tt))) = jsonl texts
      /\ printed (fst (Eval.create_mock_jsonl_dataset dumps file_path
                         (data ++ bad :: rest) (Return tt)))
         = [("-> Creating mock dataset at " ++ file_path) ++ Chat.nl;
            ("Error creating dataset file: " ++ str_exn e) ++ Chat.nl]
      /\ snd (Eval.create_mock_jsonl_dataset dumps file_path
                (data ++ bad :: rest) (Return tt)) = Return tt)
  /\ (forall (items : list pyval) (e : exn),
      Eval.create_mock_jsonl_dataset dumps file_path items (Raise e)
      = ([Eval.Out (("-> Creating mock dataset at " ++ file_path) ++ Chat.nl);
          Eval.OpenForWriting file_path;
          Eval.Out (("Error creating dataset file: " ++ str_exn e) ++ Chat.nl)],
         Return tt))
  /\ (forall (items : list pyval) (opened : result unit),
      snd (Eval.create_mock_jsonl_dataset dumps file_path items opened)
      = Return tt).
Proof.
  intros Hall. split; [|split; [|split]].
  - destruct (write_items_written data texts [] (Return tt) Hall eq_refl
                (or_introl eq_refl)) as (Ht & Hp & Hr).
    rewrite app_nil_r in Ht, Hp, Hr.
    unfold Eval.create_mock_jsonl_dataset.
    destruct (Eval.write_items dumps data) as [out r].
    cbn in Ht, Hp, Hr. subst r. cbn.
    rewrite file_text_app, printed_app, Ht, Hp. cbn.
    repeat split. now rewrite string_append_nil_r.
  - intros bad rest e Hbad.
    destruct (write_items_written data texts (bad :: rest) (Raise e) Hall
                ltac:(cbn; rewrite Hbad; reflexivity)
                ltac:(right; exists bad, rest, e; split; trivial))
      as (Ht & Hp & Hr).
    unfold Eval.create_mock_jsonl_dataset.
    destruct (Eval.write_items dumps (data ++ bad :: rest)) as [out r].
    cbn in Ht, Hp, Hr. subst r. cbn.
    rewrite file_text_app, printed_app, Ht, Hp. cbn.
    repeat split. now rewrite string_append_nil_r.
  - intros items e. reflexivity.
  - intros items opened. unfold Eval.create_mock_jsonl_dataset.
    destruct opened as [[]|e]; [|reflexivity].
    destruct (Eval.write_items dumps items) as [out [[]|e]]; reflexivity.
Qed.

End DatasetProperties.

(** A serialiser that accepts objects only. *)
Definition dumps_objects (v : pyval) : result string :=
  match v with
  | PDict [] => Return "{}"
  | PDict _ => Return "{...}"
  | _ => Raise (mkExn ExTypeError "Object is not JSON serializable")
  end.

Lemma dataset_file_holds_one_line_per_item_witness :
  (Eval.file_text (fst (Eval.create_mock_jsonl_dataset dumps_objects "data.jsonl"
                          [PDict []; PDict [("query", PStr "hi")]] (Return tt)))
   = jsonl ["{}"; "{...}"]
   /\ printed (fst (Eval.create_mock_jsonl_dataset dumps_objects "data.jsonl"
                      [PDict []; PDict [("query", PStr "hi")]] (Return tt)))
      = [("-> Creating mock dataset at " ++ "data.jsonl") ++ Chat.nl;
         "-> Dataset created successfully." ++ Chat.nl]
   /\ snd (Eval.create_mock_jsonl_dataset dumps_objects "data.jsonl"
             [PDict []; PDict [("query", PStr "hi")]] (Return tt))
      = Return tt).
Proof.
  apply (proj1 (dataset_file_holds_one_line_per_item dumps_objects "data.jsonl"
                  [PDict []; PDict [("query", PStr "hi")]] ["{}"; "{...}"]
                  ltac:(repeat constructor))).
Defined.
